(** * Metrics tracking of keras-tuner: a shallow embedding and its properties

    The development follows [kerastuner/engine/metrics_tracking.py]:
    the direction classifier [infer_metric_direction] and the class
    [MetricsTracker].  Python objects are mutable and methods may raise
    after having changed [self]; a method is therefore a function from the
    tracker to the tracker it leaves behind and either a value or the
    exception raised. *)

From Stdlib Require Import ZArith Ascii String List Bool Lia.
From Stdlib Require Import Floats.SpecFloat.
From stdpp Require Import base option list gmap strings.

Open Scope string_scope.
Open Scope list_scope.

(** ** Floating-point values

    [float(value)] is an IEEE 754 binary64 number.  It is modelled by the
    Standard Library's [spec_float]: signed zeros, signed infinities, one NaN
    and the finite numbers [(-1)^s * m * 2^e].  Only comparisons are needed;
    a comparison with NaN on either side is false. *)

Definition float : Type := spec_float.

Definition nan : float := S754_nan.

Definition isnan (x : float) : bool :=
  match x with S754_nan => true | _ => false end.

(** Python's [a < b], [a <= b], [a >= b] and [a == b] on floats. *)
Definition flt (a b : float) : bool := SFltb a b.
Definition fle (a b : float) : bool := SFleb a b.
Definition fge (a b : float) : bool := SFleb b a.
Definition fgt (a b : float) : bool := SFltb b a.
Definition feq (a b : float) : bool := SFeqb a b.

(** Some binary64 constants, written mantissa and exponent. *)
Definition f0_5 : float := S754_finite false 4503599627370496 (-53).
Definition f0_6 : float := S754_finite false 5404319552844595 (-53).
Definition f0_7 : float := S754_finite false 6305039478318694 (-53).
Definition f0_8 : float := S754_finite false 7205759403792794 (-53).
Definition f0_9 : float := S754_finite false 8106479329266893 (-53).
Definition f1_0 : float := S754_finite false 4503599627370496 (-52).

(** ** Exceptions and results *)

Inductive exn : Type :=
| ValueError (msg : string)
| KeyError (key : string)
| IndexError
| AssertionError
| AttributeError (attr : string)
| TypeError (msg : string).

Inductive result (A : Type) : Type :=
| Ok (a : A)
| Raise (e : exn).
Arguments Ok {A} a.
Arguments Raise {A} e.

(** The messages of the three [ValueError]s raised by the tracker. *)
Definition dquote : string := String "034"%char EmptyString.

Definition InvalidDirection (direction : string) : exn :=
  ValueError ("`direction` should be one of {" +:+ dquote +:+ "min" +:+ dquote
              +:+ ", " +:+ dquote +:+ "max" +:+ dquote +:+ "}, but got: " +:+ direction).
Definition DuplicateMetric (name : string) : exn :=
  ValueError ("Metric already exists: " +:+ name).
Definition UnknownMetric (name : string) : exn :=
  ValueError ("Unknown metric: " +:+ name).
(** [assert type(series) == list] *)
Definition InvalidHistory : exn := AssertionError.

(** ** Data model *)

(** [MetricObservation = collections.namedtuple('MetricObservation', 'value t')] *)
Record MetricObservation : Type := mkObs { value : float; t : Z }.

(** What a history list may hold.  Python does not type the elements of a
    list: besides observations, a list handed to [set_history] or found in a
    configuration may hold plain two-element records [[value, t]] (the
    serialized form of an observation) or anything else, here a bare number. *)
Inductive pyitem : Type :=
| Obs (o : MetricObservation)
| Pair (v : float) (ti : Z)
| Num (v : float).

(** The argument [series] of [set_history]: a list, a tuple, or neither. *)
Inductive pyseries : Type :=
| PyList (items : list pyitem)
| PyTuple (items : list pyitem)
| PyNone.

(** The tracker's three attributes.  A history is held by value: the
    lists stored under different names are taken to be distinct objects, as
    they are when histories are built by [register], [update] and
    [from_config]. *)
Record MetricsTracker : Type := mkTracker {
  names : list string;
  directions : gmap string string;
  metrics_history : gmap string (list pyitem)
}.

(** Objects of the external metric catalog [keras.metrics]: an instance of
    a [keras.metrics.Metric] subclass, with its class name, the name of the
    function it wraps (read only when the class is [MeanMetricWrapper]) and
    its [name] attribute; or a metric class or function, with its
    [__name__]. *)
Inductive keras_obj : Type :=
| KInstance (class_name : string) (fn_name : string) (name : string)
| KCallable (dunder_name : string).

(** The argument of [infer_metric_direction]: a [str] or a catalog object. *)
Inductive metric : Type :=
| MStr (s : string)
| MObj (o : keras_obj).

(** ** Methods as state-and-exception computations *)

Definition M (A : Type) : Type := MetricsTracker -> MetricsTracker * result A.

Definition ret {A} (a : A) : M A := fun self => (self, Ok a).
Definition raise {A} (e : exn) : M A := fun self => (self, Raise e).
Definition bind {A B} (m : M A) (k : A -> M B) : M B :=
  fun self =>
    match m self with
    | (self', Ok a) => k a self'
    | (self', Raise e) => (self', Raise e)
    end.
Definition get_self : M MetricsTracker := fun self => (self, Ok self).
Definition modify (f : MetricsTracker -> MetricsTracker) : M unit :=
  fun self => (f self, Ok tt).
(** A pure, fallible computation run inside a method. *)
Definition lift {A} (r : result A) : M A := fun self => (self, r).

Declare Scope py_scope.
Delimit Scope py_scope with py.
Notation "'let*' x := m 'in' k" := (bind m (fun x => k))
  (at level 10, x name, m at level 100, k at level 200) : py_scope.
Notation "m ;;; k" := (bind m (fun _ => k))
  (at level 100, k at level 200, right associativity) : py_scope.

(** The same for pure fallible code. *)
Definition rbind {A B} (r : result A) (k : A -> result B) : result B :=
  match r with Ok a => k a | Raise e => Raise e end.

Fixpoint mapR {A B} (f : A -> result B) (l : list A) : result (list B) :=
  match l with
  | [] => Ok []
  | x :: l' => rbind (f x) (fun y => rbind (mapR f l') (fun ys => Ok (y :: ys)))
  end.

(** ** Python and NumPy functions used by the tracker *)

(** The builtin [min]: the first item is the candidate; a later item
    replaces it when [item < candidate].  [max] likewise with [>]. *)
Definition py_min (l : list float) : result float :=
  match l with
  | [] => Raise (ValueError "min() arg is an empty sequence")
  | x :: l' => Ok (fold_left (fun best y => if flt y best then y else best) l' x)
  end.

Definition py_max (l : list float) : result float :=
  match l with
  | [] => Raise (ValueError "max() arg is an empty sequence")
  | x :: l' => Ok (fold_left (fun best y => if fgt y best then y else best) l' x)
  end.

(** [np.fmin] and [np.fmax] return the other operand when one is NaN;
    [np.nanmin] and [np.nanmax] reduce the array with them, so the result is
    NaN exactly when every element is (NumPy then also emits a warning). *)
Definition np_fmin (a b : float) : float := if fle a b || isnan b then a else b.
Definition np_fmax (a b : float) : float := if fge a b || isnan b then a else b.

Definition np_nanmin (l : list float) : result float :=
  match l with
  | [] => Raise (ValueError "zero-size array to reduction operation fmin which has no identity")
  | x :: l' => Ok (fold_left np_fmin l' x)
  end.

Definition np_nanmax (l : list float) : result float :=
  match l with
  | [] => Raise (ValueError "zero-size array to reduction operation fmax which has no identity")
  | x :: l' => Ok (fold_left np_fmax l' x)
  end.

(** [np.argmin]: the index of the first occurrence of the minimum, where a
    NaN counts as the minimum: the scan keeps a candidate [mp] at index [ibest],
    stops at once when the candidate is NaN, and takes the item at [i] as the
    new candidate when [not (item >= mp)].  [np.argmax] likewise with [<=]. *)
Fixpoint argmin_scan (mp : float) (ibest i : nat) (l : list float) : nat :=
  if isnan mp then ibest else
  match l with
  | [] => ibest
  | x :: l' => if negb (fge x mp) then argmin_scan x i (S i) l'
               else argmin_scan mp ibest (S i) l'
  end.

Fixpoint argmax_scan (mp : float) (ibest i : nat) (l : list float) : nat :=
  if isnan mp then ibest else
  match l with
  | [] => ibest
  | x :: l' => if negb (fle x mp) then argmax_scan x i (S i) l'
               else argmax_scan mp ibest (S i) l'
  end.

Definition np_argmin (l : list float) : result nat :=
  match l with
  | [] => Raise (ValueError "attempt to get argmin of an empty sequence")
  | x :: l' => Ok (argmin_scan x 0 1 l')
  end.

Definition np_argmax (l : list float) : result nat :=
  match l with
  | [] => Raise (ValueError "attempt to get argmax of an empty sequence")
  | x :: l' => Ok (argmax_scan x 0 1 l')
  end.

(** [obs.value] and [obs.t]: only a [MetricObservation] has these attributes. *)
Definition attr_value (it : pyitem) : result float :=
  match it with
  | Obs o => Ok (value o)
  | _ => Raise (AttributeError "value")
  end.

Definition attr_t (it : pyitem) : result Z :=
  match it with
  | Obs o => Ok (t o)
  | _ => Raise (AttributeError "t")
  end.

(** [MetricObservation] applied to a starred item, as [from_config] does:
    the call unpacks any two-element sequence, and a named tuple is one. *)
Definition MetricObservation_star (it : pyitem) : result pyitem :=
  match it with
  | Obs o => Ok (Obs (mkObs (value o) (t o)))
  | Pair v ti => Ok (Obs (mkObs v ti))
  | Num _ => Raise (TypeError "MetricObservation() argument after * must be an iterable")
  end.

(** ** The direction classifier *)

Definition _MAX_METRICS : list string :=
  [ "Accuracy"; "BinaryAccuracy";
    "CategoricalAccuracy"; "SparseCategoricalAccuracy";
    "TopKCategoricalAccuracy"; "SparseTopKCategoricalAccuracy";
    "TruePositives"; "TrueNegatives";
    "Precision"; "Recall"; "AUC";
    "SensitivityAtSpecificity"; "SpecificityAtSensitivity" ].

Definition _MAX_METRIC_FNS : list string :=
  [ "accuracy"; "categorical_accuracy"; "binary_accuracy";
    "sparse_categorical_accuracy" ].

(** [name in s] for a set of strings. *)
Definition str_in (x : string) (s : list string) : bool :=
  existsb (String.eqb x) s.

(** [metric_name[:4]] and [metric_name[4:]] *)
Definition prefix4 (s : string) : string := substring 0 4 s.
Definition drop4 (s : string) : string := substring 4 (String.length s - 4) s.

(** What the module takes from outside: a catalog [keras.metrics.get]
    that answers or does not know a name (the object of that name, or [None]
    where it raises [ValueError]; what the classifier does when the catalog
    raises anything else is [infer_metric_direction_catalog] below); the
    values a caller may hand to [update] and the builtin [float] on them;
    and the NumPy reductions of [get_statistics] that are not modelled. *)
Class Env : Type := {
  keras_metrics_get : string -> option keras_obj;
  pyvalue : Type;
  py_float : pyvalue -> result float;
  np_nanmean : list float -> float;
  np_nanmedian : list float -> float;
  np_nanvar : list float -> float;
  np_nanstd : list float -> float
}.

Section Classifier.

Context {E : Env}.

(** Lines 187-196: the identity of a catalog object and its direction. *)
Definition direction_of_obj (o : keras_obj) : string :=
  let name :=
    match o with
    | KInstance class_name fn_name _ =>
        if String.eqb class_name "MeanMetricWrapper" then fn_name else class_name
    | KCallable dunder_name => dunder_name
    end in
  if str_in name _MAX_METRICS || str_in name _MAX_METRIC_FNS then "max" else "min".

Definition infer_metric_direction (m : metric) : string :=
  match m with
  | MStr s =>
      let metric_name :=
        if (4 <? String.length s)%nat && String.eqb (prefix4 s) "val_"
        then drop4 s else s in
      if String.eqb metric_name "loss" then "min"
      else match keras_metrics_get metric_name with
           | None => "min"
           | Some o => direction_of_obj o
           end
  | MObj o => direction_of_obj o
  end.

End Classifier.

(** The classifier over a catalog call with every outcome: [get name] is
    the object [keras.metrics.get] returns, or the exception it raises.  The
    [try] of lines 180-184 catches [ValueError] alone, so any other exception
    of the catalog leaves the function. *)
Definition infer_metric_direction_catalog (get : string -> result keras_obj)
  (m : metric) : result string :=
  match m with
  | MStr s =>
      let metric_name :=
        if (4 <? String.length s)%nat && String.eqb (prefix4 s) "val_"
        then drop4 s else s in
      if String.eqb metric_name "loss" then Ok "min"
      else match get metric_name with
           | Ok o => Ok (direction_of_obj o)
           | Raise (ValueError _) => Ok "min"
           | Raise e => Raise e
           end
  | MObj o => Ok (direction_of_obj o)
  end.

(** A catalog that answers or does not know a name, as a catalog call: an
    unknown name raises [ValueError].  The catalog of an environment is of
    this kind, and [infer_metric_direction] is the classifier over it. *)
Definition answering (get : string -> option keras_obj) (s : string)
  : result keras_obj :=
  match get s with
  | Some o => Ok o
  | None => Raise (ValueError ("Unknown metric function: " +:+ s))
  end.

(** ** The tracker *)

(** The structure exchanged by [get_config] and [from_config]. *)
Record config : Type := mkConfig {
  cfg_names : list string;
  cfg_directions : gmap string string;
  cfg_metrics_history : gmap string (list pyitem)
}.

(** The attributes right after [self.names = []], [self.directions = {}] and
    [self.metrics_history = {}]. *)
Definition empty_tracker : MetricsTracker := mkTracker [] ∅ ∅.

(** [metric.name]: metric instances have the attribute; strings, classes
    and functions do not. *)
Definition attr_name (m : metric) : result string :=
  match m with
  | MObj (KInstance _ _ name) => Ok name
  | _ => Raise (AttributeError "name")
  end.

Section Tracker.

Context {E : Env}.

Local Open Scope py_scope.

Definition exists_ (name : string) : M bool :=
  let* self := get_self in
  ret (bool_decide (name ∈ names self)).

Definition register (name : string) (direction : option string) : M unit :=
  let direction :=
    match direction with
    | None => infer_metric_direction (MStr name)
    | Some d => d
    end in
  if negb (str_in direction ["min"; "max"]) then raise (InvalidDirection direction)
  else
    let* self := get_self in
    if bool_decide (name ∈ names self) then raise (DuplicateMetric name)
    else
      modify (fun s => mkTracker (names s ++ [name]) (directions s) (metrics_history s)) ;;;
      modify (fun s => mkTracker (names s) (<[name := direction]> (directions s))
                                 (metrics_history s)) ;;;
      modify (fun s => mkTracker (names s) (directions s)
                                 (<[name := []]> (metrics_history s))).

Fixpoint register_each (metrics : list metric) : M unit :=
  match metrics with
  | [] => ret tt
  | m :: rest =>
      let direction := infer_metric_direction m in
      let* name := lift (attr_name m) in
      register name (Some direction) ;;;
      register_each rest
  end.

(** [metrics = metrics or []] and the loop. *)
Definition register_metrics (metrics : option (list metric)) : M unit :=
  register_each (default [] metrics).

(** [MetricsTracker(metrics)]: the attributes are initialised, then the
    metrics registered. *)
Definition __init__ (metrics : option (list metric)) : MetricsTracker * result unit :=
  register_metrics metrics empty_tracker.

Definition get_history (name : string) : M (list pyitem) :=
  let* self := get_self in
  if negb (bool_decide (name ∈ names self)) then raise (UnknownMetric name)
  else match metrics_history self !! name with
       | Some history => ret history
       | None => raise (KeyError name)
       end.

(** [self.directions[name]] *)
Definition get_direction (name : string) : M string :=
  let* self := get_self in
  match directions self !! name with
  | Some d => ret d
  | None => raise (KeyError name)
  end.

(** [update] returns a bool, or Python's [None] when the direction is
    neither ["max"] nor ["min"].  [history.append] changes the list stored
    under [name]. *)
Definition update (name : string) (v : pyvalue) (ti : Z) : M (option bool) :=
  let* value := lift (py_float v) in
  let* known := exists_ name in
  (if negb known then register name None else ret tt) ;;;
  let* history := get_history name in
  let* history_values := lift (mapR attr_value history) in
  modify (fun s => mkTracker (names s) (directions s)
            (<[name := history ++ [Obs (mkObs value ti)]]> (metrics_history s))) ;;;
  if (length history_values =? 0)%nat then ret (Some true)
  else
    let* d := get_direction name in
    if String.eqb d "max" then
      let* best := lift (np_nanmax history_values) in
      if fge value best then ret (Some true) else ret (Some false)
    else
      let* d := get_direction name in
      if String.eqb d "min" then
        let* best := lift (np_nanmin history_values) in
        if fle value best then ret (Some true) else ret (Some false)
      else ret None.

Definition set_history (name : string) (series : pyseries) : M unit :=
  match series with
  | PyList items =>
      let* known := exists_ name in
      (if negb known then register name None else ret tt) ;;;
      modify (fun s => mkTracker (names s) (directions s)
                                 (<[name := items]> (metrics_history s)))
  | _ => raise InvalidHistory
  end.

Definition get_best_value (name : string) : M (option float) :=
  let* history := get_history name in
  if (length history =? 0)%nat then ret None
  else
    let* history_values := lift (mapR attr_value history) in
    let* direction := get_direction name in
    if String.eqb direction "min" then
      let* r := lift (py_min history_values) in ret (Some r)
    else
      let* r := lift (py_max history_values) in ret (Some r).

Definition get_best_t (name : string) : M (option Z) :=
  let* history := get_history name in
  if (length history =? 0)%nat then ret None
  else
    let* history_values := lift (mapR attr_value history) in
    let* direction := get_direction name in
    let* t_index :=
      (if String.eqb direction "min" then lift (np_argmin history_values)
       else lift (np_argmax history_values)) in
    match history !! t_index with
    | Some it => let* r := lift (attr_t it) in ret (Some r)
    | None => raise IndexError
    end.

Definition get_statistics (name : string) : M (gmap string float) :=
  let* history := get_history name in
  let* history_values := lift (mapR attr_value history) in
  if (length history_values =? 0)%nat then ret ∅
  else
    let* vmin := lift (np_nanmin history_values) in
    let* vmax := lift (np_nanmax history_values) in
    ret (list_to_map
           [ ("min", vmin); ("max", vmax);
             ("mean", np_nanmean history_values);
             ("median", np_nanmedian history_values);
             ("var", np_nanvar history_values);
             ("std", np_nanstd history_values) ]).

Definition get_last_value (name : string) : M (option float) :=
  let* history := get_history name in
  match last history with
  | Some it => let* r := lift (attr_value it) in ret (Some r)
  | None => ret None
  end.

(** [copy.copy] of the three attributes: the same contents. *)
Definition get_config : M config :=
  let* self := get_self in
  ret (mkConfig (names self) (directions self) (metrics_history self)).

(** The dict comprehension of [from_config]: every item of every history
    goes through [MetricObservation]. *)
Definition rebuild_histories (mh : gmap string (list pyitem))
  : result (gmap string (list pyitem)) :=
  map_fold (fun name data acc =>
              rbind acc (fun m =>
              rbind (mapR MetricObservation_star data) (fun l =>
              Ok (<[name := l]> m))))
           (Ok ∅) mh.

(** The class method: [cls()] builds an empty tracker, whose attributes
    are then assigned. *)
Definition from_config (c : config) : result MetricsTracker :=
  match __init__ None with
  | (instance, Ok _) =>
      let instance := mkTracker (cfg_names c) (directions instance)
                                (metrics_history instance) in
      let instance := mkTracker (names instance) (cfg_directions c)
                                (metrics_history instance) in
      rbind (rebuild_histories (cfg_metrics_history c)) (fun mh =>
      Ok (mkTracker (names instance) (directions instance) mh))
  | (_, Raise e) => Raise e
  end.

End Tracker.

(** ** A concrete environment

    A small catalog in the manner of [keras.metrics.get], and the values
    handed to [update]: a float, a string or [None].  The builtin [float]
    parses ["nan"]; the other strings used here are not numbers. *)
Module Sample.

Definition catalog (s : string) : option keras_obj :=
  if String.eqb s "accuracy" then Some (KCallable "accuracy")
  else if String.eqb s "acc" then Some (KCallable "accuracy")
  else if String.eqb s "mse" then Some (KCallable "mean_squared_error")
  else if String.eqb s "AUC" then Some (KInstance "AUC" "" "auc")
  else None.

Inductive value_arg : Type :=
| PyFloat (f : float)
| PyStr (s : string)
| PyNoneValue.

Definition float_of (v : value_arg) : result float :=
  match v with
  | PyFloat f => Ok f
  | PyStr s => if String.eqb s "nan" then Ok nan
               else Raise (ValueError ("could not convert string to float: " +:+ s))
  | PyNoneValue => Raise (TypeError "float() argument must be a string or a number")
  end.

(** The statistics are not evaluated anywhere below. *)
Definition env_of (get : string -> option keras_obj) : Env :=
  {| keras_metrics_get := get;
     pyvalue := value_arg;
     py_float := float_of;
     np_nanmean := fun _ => nan;
     np_nanmedian := fun _ => nan;
     np_nanvar := fun _ => nan;
     np_nanstd := fun _ => nan |}.

Definition env : Env := env_of catalog.

(** A catalog call that, like [keras.metrics.get] on the name of a class
    whose constructor needs arguments, raises a [TypeError] on some names. *)
Definition keras_like (s : string) : result keras_obj :=
  if String.eqb s "SensitivityAtSpecificity"
  then Raise (TypeError "__init__() missing 1 required positional argument")
  else answering catalog s.

(** Two metrics and a few observations. *)
Definition two_metrics : MetricsTracker :=
  mkTracker ["loss"; "accuracy"]
            {[ "loss" := "min"; "accuracy" := "max" ]}
            {[ "loss" := [Obs (mkObs f1_0 0); Obs (mkObs f0_8 1)];
               "accuracy" := [] ]}.

End Sample.

(** ** Vocabulary of the statements *)

(** [strip_prefix p s]: what follows [p] in [s], when [s] starts with [p]. *)
Fixpoint strip_prefix (p s : string) : option string :=
  match p, s with
  | EmptyString, _ => Some s
  | String a p', String b s' => if Ascii.eqb a b then strip_prefix p' s' else None
  | String _ _, EmptyString => None
  end.


(** The canonical name the classifier works with: a leading ["val_"] is
    stripped when something follows it. *)
Definition canonical_name (name : string) : string :=
  match strip_prefix "val_" name with
  | Some (String c rest) => String c rest
  | _ => name
  end.

(** The identity of a catalog object: its class name, or the name of the
    wrapped function for the function wrapper; the [__name__] of a class or
    function. *)
Definition identity (o : keras_obj) : string :=
  match o with
  | KInstance class_name fn_name _ =>
      if String.eqb class_name "MeanMetricWrapper" then fn_name else class_name
  | KCallable dunder_name => dunder_name
  end.


Definition valid_direction (d : string) : Prop := d = "min" \/ d = "max".

(** An item that is a [MetricObservation]. *)
Definition is_observation (it : pyitem) : Prop :=
  match it with Obs _ => True | _ => False end.


Section Vocabulary.

Context {E : Env}.

(** The direction [register] checks: the one supplied, else the inferred one. *)
Definition resolved_direction (name : string) (direction : option string) : string :=
  default (infer_metric_direction (MStr name)) direction.

(** The tracker after a successful [register]. *)
Definition registered (name d : string) (tr : MetricsTracker) : MetricsTracker :=
  mkTracker (names tr ++ [name]) (<[name := d]> (directions tr))
            (<[name := []]> (metrics_history tr)).

(** The tracker after [history.append] on the history [h] of [name]. *)
Definition appended (name : string) (h : list pyitem) (x : float) (ti : Z)
  (tr : MetricsTracker) : MetricsTracker :=
  mkTracker (names tr) (directions tr)
            (<[name := h ++ [Obs (mkObs x ti)]]> (metrics_history tr)).

(** The mutating operations a caller may issue, and the tracker each
    leaves behind, whether it returns or raises. *)
Inductive operation : Type :=
| Register (name : string) (direction : option string)
| RegisterMetrics (metrics : option (list metric))
| Update (name : string) (v : pyvalue) (ti : Z)
| SetHistory (name : string) (series : pyseries).

Definition after (o : operation) (tr : MetricsTracker) : MetricsTracker :=
  match o with
  | Register name direction => fst (register name direction tr)
  | RegisterMetrics metrics => fst (register_metrics metrics tr)
  | Update name v ti => fst (update name v ti tr)
  | SetHistory name series => fst (set_history name series tr)
  end.

(** The trackers that can be observed: the one the constructor builds,
    empty or seeded with metrics, and those any operation leaves behind. *)
Inductive reachable : MetricsTracker -> Prop :=
| reachable_init metrics : reachable (fst (__init__ metrics))
| reachable_step o tr : reachable tr -> reachable (after o tr).

End Vocabulary.

(** Every history holds observations only, as the data model has it. *)
Definition observations_only (tr : MetricsTracker) : Prop :=
  forall name h, metrics_history tr !! name = Some h -> Forall is_observation h.

(** The three attributes have the same keys. *)
Definition keys_in_sync (tr : MetricsTracker) : Prop :=
  list_to_set (names tr) =@{gset string} dom (directions tr) /\
  dom (directions tr) =@{gset string} dom (metrics_history tr).

(** [triple P m Q X]: from a tracker satisfying [P], the computation [m]
    either returns [a] in a tracker satisfying [Q a], or raises in a tracker
    satisfying [X]. *)
Definition triple {A} (P : MetricsTracker -> Prop) (m : M A)
  (Q : A -> MetricsTracker -> Prop) (X : MetricsTracker -> Prop) : Prop :=
  forall self, P self ->
    match m self with
    | (self', Ok a) => Q a self'
    | (self', Raise _) => X self'
    end.

(** A computation is read-only when it leaves the tracker as it found it,
    whether it returns or raises. *)
Definition read_only {A} (m : M A) : Prop := forall self, fst (m self) = self.

(** [a] is at least as extreme as [b], or strictly more extreme, for a
    metric of direction [d]. *)
Definition at_least_as_extreme (d : string) (a b : float) : bool :=
  if String.eqb d "max" then fge a b else fle a b.
Definition more_extreme (d : string) (a b : float) : bool :=
  if String.eqb d "max" then fgt a b else flt a b.

Definition no_nan (l : list float) : Prop := Forall (fun p => isnan p = false) l.

(** A series of [update] calls on one metric: the tracker left behind and
    the answers, in call order. *)
Definition run_updates `{E : Env} (name : string) (obs : list (pyvalue * Z))
  (tr : MetricsTracker) : MetricsTracker * list (result (option bool)) :=
  fold_left (fun '(tr, rs) '(v, ti) =>
               let (tr', r) := update name v ti tr in (tr', rs ++ [r]))
            obs (tr, []).

(** Two trackers built by [update] alone, with a NaN among the losses. *)
Definition nan_then_0_8 : MetricsTracker :=
  fst (@run_updates Sample.env "loss"
         [(Sample.PyFloat nan, 0%Z); (Sample.PyFloat f0_8, 1%Z)] empty_tracker).
Definition one_then_nan : MetricsTracker :=
  fst (@run_updates Sample.env "loss"
         [(Sample.PyFloat f1_0, 0%Z); (Sample.PyFloat nan, 1%Z)] empty_tracker).

(** The tracker after a history is stored under a name. *)
Definition stored (name : string) (h : list pyitem) (tr : MetricsTracker)
  : MetricsTracker :=
  mkTracker (names tr) (directions tr) (<[name := h]> (metrics_history tr)).

(** A property of trackers that registering a new name with a valid
    direction keeps, and that storing a history under a known name keeps. *)
Definition kept_by_operations `{E : Env} (I : MetricsTracker -> Prop) : Prop :=
  (forall s n d, I s -> n ∉ names s -> valid_direction d -> I (registered n d s)) /\
  (forall s n h, I s -> n ∈ names s -> I (stored n h s)).

(** The names of [tr0] are still there, first and in the same order, and
    have the directions they had. *)
Definition extends (tr0 tr : MetricsTracker) : Prop :=
  (exists new, names tr = names tr0 ++ new) /\
  (forall name, name ∈ names tr0 -> directions tr !! name = directions tr0 !! name).

Definition directions_valid (tr : MetricsTracker) : Prop :=
  forall name d, directions tr !! name = Some d -> valid_direction d.

(** What [from_config] makes of an item, and the items it can unpack. *)
Definition as_observation (it : pyitem) : pyitem :=
  match it with
  | Obs o => Obs o
  | Pair v ti => Obs (mkObs v ti)
  | Num v => Num v
  end.

Definition unpackable (it : pyitem) : Prop :=
  match it with Num _ => False | _ => True end.

Definition histories_unpackable (mh : gmap string (list pyitem)) : Prop :=
  forall name h, mh !! name = Some h -> Forall unpackable h.

(** A metric instance given by its class name, wrapped function name and
    [name] attribute. *)
Definition metric_instance (c : string * string * string) : metric :=
  MObj (KInstance c.1.1 c.1.2 c.2).

(** The observations a series of [update] calls records, given the floats
    the values coerce to. *)
Definition recorded `{E : Env} (obs : list (pyvalue * Z)) (xs : list float)
  : list pyitem :=
  zip_with (fun o x => Obs (mkObs x o.2)) obs xs.

(** ** Basic facts about the classifier and the methods *)

Lemma str_in_min_max d : str_in d ["min"; "max"] = true <-> valid_direction d.
Proof.
  unfold str_in, valid_direction; simpl.
  rewrite orb_false_r, orb_true_iff, !String.eqb_eq. tauto.
Qed.

Section TrackerFacts.

Context {E : Env}.

Lemma direction_of_obj_valid o : valid_direction (direction_of_obj o).
Proof.
  unfold direction_of_obj, valid_direction.
  match goal with |- context [if ?b then _ else _] => destruct b end; auto.
Qed.

Lemma infer_metric_direction_valid m :
  valid_direction (infer_metric_direction m).
Proof.
  destruct m as [s|o]; simpl; [|apply direction_of_obj_valid].
  destruct (String.eqb _ "loss"); [left; reflexivity|].
  destruct (keras_metrics_get _); [apply direction_of_obj_valid|left; reflexivity].
Qed.

Lemma register_unfold name direction tr :
  register name direction tr =
    let d := resolved_direction name direction in
    if negb (str_in d ["min"; "max"]) then (tr, Raise (InvalidDirection d))
    else if bool_decide (name ∈ names tr) then (tr, Raise (DuplicateMetric name))
    else (registered name d tr, Ok tt).
Proof.
  unfold register, resolved_direction, registered; cbn zeta.
  destruct direction as [d|]; simpl;
    (destruct (negb _); [reflexivity|]);
    unfold bind, get_self, raise, modify; simpl;
    destruct (bool_decide _); reflexivity.
Qed.



Lemma register_fresh name direction tr :
  valid_direction (resolved_direction name direction) ->
  name ∉ names tr ->
  register name direction tr =
    (registered name (resolved_direction name direction) tr, Ok tt).
Proof.
  intros H Hin. rewrite register_unfold; cbn zeta.
  apply str_in_min_max in H. rewrite H; simpl.
  rewrite bool_decide_eq_false_2 by assumption. reflexivity.
Qed.

(** Registration through [update] and [set_history] never fails: the
    inferred direction is valid and the name is new. *)
Lemma register_auto name tr :
  name ∉ names tr ->
  register name None tr = (registered name (infer_metric_direction (MStr name)) tr, Ok tt).
Proof.
  intros Hin. apply (register_fresh name None); [|assumption].
  apply infer_metric_direction_valid.
Qed.

End TrackerFacts.

(** ** Running the methods *)

Ltac run_method :=
  unfold update, set_history, get_best_value, get_best_t, get_statistics,
         get_last_value, get_config, get_history, get_direction, exists_,
         bind, lift, ret, raise, get_self, modify; simpl.

Section MethodFacts.

Context {E : Env}.

Lemma get_history_registered name tr h :
  name ∈ names tr -> metrics_history tr !! name = Some h ->
  get_history name tr = (tr, Ok h).
Proof.
  intros Hin Hh. run_method.
  rewrite bool_decide_eq_true_2 by assumption; simpl. rewrite Hh. reflexivity.
Qed.

Lemma get_history_unknown name tr :
  name ∉ names tr -> get_history name tr = (tr, Raise (UnknownMetric name)).
Proof.
  intros Hin. run_method.
  rewrite bool_decide_eq_false_2 by assumption. reflexivity.
Qed.

Lemma mapR_attr_value_nil h : mapR attr_value h = Ok [] -> h = [].
Proof.
  destruct h as [|it h]; [reflexivity|]; simpl.
  destruct (attr_value it); simpl; [|discriminate].
  destruct (mapR attr_value h); simpl; discriminate.
Qed.

(** [update] on a known metric whose history holds observations. *)
Lemma update_registered name v x ti tr h vs d :
  py_float v = Ok x ->
  name ∈ names tr ->
  metrics_history tr !! name = Some h ->
  mapR attr_value h = Ok vs ->
  directions tr !! name = Some d ->
  valid_direction d ->
  update name v ti tr =
    (appended name h x ti tr,
     Ok (Some match vs with
              | [] => true
              | p :: ps => if String.eqb d "max" then fge x (fold_left np_fmax ps p)
                           else fle x (fold_left np_fmin ps p)
              end)).
Proof.
  intros Hx Hin Hh Hvs Hd Hv. run_method. rewrite Hx; simpl.
  repeat (rewrite bool_decide_eq_true_2 by assumption; simpl).
  rewrite Hh, Hvs; simpl.
  destruct vs as [|p ps]; simpl; [reflexivity|].
  destruct Hv as [-> | ->]; repeat (rewrite Hd; simpl).
  - destruct (fle _ _); reflexivity.
  - destruct (fge _ _); reflexivity.
Qed.

Lemma update_fresh name v x ti tr :
  py_float v = Ok x ->
  name ∉ names tr ->
  update name v ti tr =
    (appended name [] x ti (registered name (infer_metric_direction (MStr name)) tr),
     Ok (Some true)).
Proof.
  intros Hx Hin. unfold update, bind at 1, lift. rewrite Hx.
  unfold bind at 1, exists_, bind at 1, get_self, ret.
  rewrite bool_decide_eq_false_2 by assumption. cbn [negb].
  unfold bind at 1. rewrite register_auto by assumption.
  unfold bind at 1.
  rewrite (get_history_registered name _ []).
  - reflexivity.
  - unfold registered; simpl. set_solver.
  - unfold registered; simpl. apply lookup_insert_eq.
Qed.

End MethodFacts.

(** ** Methods that only read

    All the queries are read-only. *)

Lemma read_only_run {A} (m : M A) self : read_only m -> fst (m self) = self.
Proof. intros H. apply H. Qed.

Lemma read_only_ret {A} (a : A) : read_only (ret a).
Proof. intros self. reflexivity. Qed.

Lemma read_only_raise {A} e : read_only (@raise A e).
Proof. intros self. reflexivity. Qed.

Lemma read_only_lift {A} (r : result A) : read_only (lift r).
Proof. intros self. reflexivity. Qed.

Lemma read_only_get_self : read_only get_self.
Proof. intros self. reflexivity. Qed.

Lemma read_only_bind {A B} (m : M A) (k : A -> M B) :
  read_only m -> (forall a, read_only (k a)) -> read_only (bind m k).
Proof.
  intros Hm Hk self. unfold bind. specialize (Hm self).
  destruct (m self) as [self' [a|e]]; simpl in Hm; subst self'.
  - apply Hk.
  - reflexivity.
Qed.

Ltac pure_method_tac :=
  repeat first
    [ apply read_only_ret | apply read_only_raise | apply read_only_lift
    | apply read_only_get_self
    | apply read_only_bind; [|intros ?]
    | match goal with
      | |- read_only (if ?b then _ else _) => destruct b
      | |- read_only (match ?x with _ => _ end) => destruct x
      end ].

Section ReadOnly.

Context {E : Env}.

Lemma read_only_exists name : read_only (exists_ name).
Proof. unfold exists_. pure_method_tac. Qed.

Lemma read_only_get_history name : read_only (get_history name).
Proof.
  unfold get_history. apply read_only_bind; [apply read_only_get_self|].
  intros self. pure_method_tac.
Qed.

Lemma read_only_get_direction name : read_only (get_direction name).
Proof.
  unfold get_direction. apply read_only_bind; [apply read_only_get_self|].
  intros self. pure_method_tac.
Qed.

Lemma read_only_get_best_value name : read_only (get_best_value name).
Proof.
  unfold get_best_value.
  apply read_only_bind; [apply read_only_get_history|]. intros h.
  destruct (length h =? 0)%nat; [apply read_only_ret|].
  apply read_only_bind; [apply read_only_lift|]. intros vs.
  apply read_only_bind; [apply read_only_get_direction|]. intros d.
  pure_method_tac.
Qed.

Lemma read_only_get_best_t name : read_only (get_best_t name).
Proof.
  unfold get_best_t.
  apply read_only_bind; [apply read_only_get_history|]. intros h.
  destruct (length h =? 0)%nat; [apply read_only_ret|].
  apply read_only_bind; [apply read_only_lift|]. intros vs.
  apply read_only_bind; [apply read_only_get_direction|]. intros d.
  pure_method_tac.
Qed.

Lemma read_only_get_statistics name : read_only (get_statistics name).
Proof.
  unfold get_statistics.
  apply read_only_bind; [apply read_only_get_history|]. intros h.
  pure_method_tac.
Qed.

Lemma read_only_get_last_value name : read_only (get_last_value name).
Proof.
  unfold get_last_value.
  apply read_only_bind; [apply read_only_get_history|]. intros h.
  pure_method_tac.
Qed.

Lemma read_only_get_config : read_only get_config.
Proof. unfold get_config. pure_method_tac. Qed.

End ReadOnly.


(** ** Reasoning about a method step by step *)

Lemma triple_bind {A B} P (m : M A) Q (k : A -> M B) R X :
  triple P m Q X -> (forall a, triple (Q a) (k a) R X) ->
  triple P (bind m k) R X.
Proof.
  intros Hm Hk self HP. unfold bind. specialize (Hm self HP).
  destruct (m self) as [self' [a|e]]; [|assumption].
  apply (Hk a self' Hm).
Qed.

Lemma triple_weaken {A} (P P' : MetricsTracker -> Prop) (m : M A)
  (Q Q' : A -> MetricsTracker -> Prop) (X X' : MetricsTracker -> Prop) :
  triple P' m Q' X' ->
  (forall s, P s -> P' s) -> (forall a s, Q' a s -> Q a s) ->
  (forall s, X' s -> X s) ->
  triple P m Q X.
Proof.
  intros Hm HP HQ HX self Hs. specialize (Hm self (HP _ Hs)).
  destruct (m self) as [self' [a|e]]; auto.
Qed.

Lemma triple_ret {A} (a : A) (P : MetricsTracker -> Prop) Q X :
  (forall s, P s -> Q a s) -> triple P (ret a) Q X.
Proof. intros H self HP. simpl. auto. Qed.

Lemma triple_raise {A} e (P : MetricsTracker -> Prop) (Q : A -> _) (X : _ -> Prop) :
  (forall s, P s -> X s) -> triple P (raise e) Q X.
Proof. intros H self HP. simpl. auto. Qed.

Lemma triple_modify f (P Q : MetricsTracker -> Prop) X :
  (forall s, P s -> Q (f s)) -> triple P (modify f) (fun _ => Q) X.
Proof. intros H self HP. simpl. auto. Qed.

(** A read-only computation keeps whatever held before it. *)
Lemma triple_read_only {A} (m : M A) (P : MetricsTracker -> Prop) :
  read_only m -> triple P m (fun _ => P) P.
Proof.
  intros Hm self HP. specialize (Hm self).
  destruct (m self) as [self' [a|e]]; simpl in Hm; subst self'; assumption.
Qed.

Lemma triple_fst {A} (P Q : MetricsTracker -> Prop) (m : M A) self :
  triple P m (fun _ => Q) Q -> P self -> Q (fst (m self)).
Proof.
  intros Hm HP. specialize (Hm self HP).
  destruct (m self) as [self' [a|e]]; assumption.
Qed.

(** ** Registration *)

Section Register.

Context {E : Env}.


End Register.


(** ** Values that are not numbers *)

Section InvalidValue.

Context {E : Env}.

(** C10. When [float(value)] raises, [update] raises the same exception
    and the tracker is exactly as before: nothing is registered and nothing
    is appended. *)
Theorem update_invalid_value name v ti tr e :
  py_float v = Raise e ->
  update name v ti tr = (tr, Raise e).
Proof.
  intros Hv. unfold update, bind, lift. rewrite Hv. reflexivity.
Qed.

End InvalidValue.

Lemma update_invalid_value_witness :
  @update Sample.env "never_seen" Sample.PyNoneValue 3 Sample.two_metrics
    = (Sample.two_metrics,
       Raise (TypeError "float() argument must be a string or a number")).
Proof.
  apply (@update_invalid_value Sample.env). reflexivity.
Defined.

(** ** Replacing a history *)

Section SetHistory.

Context {E : Env}.


End SetHistory.



(** ** Queries on an empty history, and the last value *)

Section EmptyHistory.

Context {E : Env}.

Lemma update_ok_inv name v ti tr tr' b :
  update name v ti tr = (tr', Ok b) ->
  exists x h,
    py_float v = Ok x /\ name ∈ names tr' /\
    metrics_history tr' !! name = Some (h ++ [Obs (mkObs x ti)]).
Proof.
  destruct (py_float v) as [x|e] eqn:Hx;
    [|intros H; unfold update, bind, lift in H; rewrite Hx in H; discriminate H].
  destruct (decide (name ∈ names tr)) as [Hin|Hin].
  - unfold update, bind at 1, lift. rewrite Hx.
    unfold bind at 1, exists_, bind at 1, get_self, ret.
    rewrite bool_decide_eq_true_2 by assumption. cbn [negb].
    unfold bind at 1, ret. unfold bind at 1.
    destruct (metrics_history tr !! name) as [h|] eqn:Hh.
    2:{ unfold get_history, bind, get_self, raise.
        rewrite bool_decide_eq_true_2 by assumption. cbn [negb].
        rewrite Hh. discriminate. }
    rewrite (get_history_registered _ _ _ Hin Hh).
    unfold bind at 1, lift.
    destruct (mapR attr_value h) as [vs|]; [|discriminate].
    match goal with
    | |- bind (modify ?f) ?k ?s = _ -> _ =>
        change (k tt (f s) = (tr', Ok b) ->
                exists x0 h0, Ok x = Ok x0 /\ name ∈ names tr' /\
                  metrics_history tr' !! name = Some (h0 ++ [Obs (mkObs x0 ti)]));
        assert (Hfst : fst (k tt (f s)) = f s)
    end.
    { apply read_only_run.
      destruct (length vs =? 0)%nat; [apply read_only_ret|].
      apply read_only_bind; [apply read_only_get_direction|]. intros d.
      destruct (String.eqb d "max"); [pure_method_tac|].
      apply read_only_bind; [apply read_only_get_direction|]. intros d'.
      pure_method_tac. }
    intros Hrun.
    pose proof (eq_trans (eq_sym (f_equal fst Hrun)) Hfst) as Htr.
    simpl in Htr. subst tr'.
    exists x, h. split; [reflexivity|]. simpl. split; [assumption|].
    apply lookup_insert_eq.
  - rewrite (update_fresh _ _ _ _ _ Hx Hin). intros H; injection H as <- _.
    exists x, []. split; [reflexivity|]. unfold appended, registered; simpl.
    split; [set_solver|]. apply lookup_insert_eq.
Qed.

(** C9. For a registered metric with an empty history, [get_statistics]
    returns the empty mapping and [get_best_value], [get_best_t] and
    [get_last_value] return [None].  When the history ends with an
    observation, [get_last_value] returns its value, whatever the time
    indices are; in particular right after a successful [update] it returns
    the value just recorded. *)
Theorem empty_and_last_queries name tr :
  name ∈ names tr ->
  (metrics_history tr !! name = Some [] ->
     get_statistics name tr = (tr, Ok ∅) /\
     get_best_value name tr = (tr, Ok None) /\
     get_best_t name tr = (tr, Ok None) /\
     get_last_value name tr = (tr, Ok None)) /\
  (forall h o,
     metrics_history tr !! name = Some (h ++ [Obs o]) ->
     get_last_value name tr = (tr, Ok (Some (value o)))) /\
  (forall tr0 v ti b x,
     update name v ti tr0 = (tr, Ok b) -> py_float v = Ok x ->
     get_last_value name tr = (tr, Ok (Some x))).
Proof.
  intros Hin.
  assert (Hlast : forall h o,
     metrics_history tr !! name = Some (h ++ [Obs o]) ->
     get_last_value name tr = (tr, Ok (Some (value o)))).
  { intros h o Hh. unfold get_last_value, bind at 1.
    rewrite (get_history_registered _ _ _ Hin Hh).
    rewrite last_snoc. reflexivity. }
  split; [|split; [exact Hlast|]].
  - intros Hh.
    unfold get_statistics, get_best_value, get_best_t, get_last_value, bind.
    rewrite (get_history_registered _ _ _ Hin Hh). simpl. auto.
  - intros tr0 v ti b x Hrun Hx.
    destruct (update_ok_inv _ _ _ _ _ _ Hrun) as (x' & h & Hx' & _ & Hh).
    rewrite Hx in Hx'. injection Hx' as <-.
    apply (Hlast h (mkObs x ti) Hh).
Qed.

End EmptyHistory.

Lemma empty_and_last_queries_witness :
  @get_statistics Sample.env "accuracy" Sample.two_metrics
    = (Sample.two_metrics, Ok ∅) /\
  get_last_value "accuracy" Sample.two_metrics
    = (Sample.two_metrics, Ok None) /\
  get_last_value "loss" Sample.two_metrics
    = (Sample.two_metrics, Ok (Some f0_8)).
Proof.
  assert (Hacc : "accuracy" ∈ names Sample.two_metrics)
    by (simpl; apply list_elem_of_further, list_elem_of_here).
  assert (Hloss : "loss" ∈ names Sample.two_metrics)
    by (simpl; apply list_elem_of_here).
  destruct (@empty_and_last_queries Sample.env "accuracy" Sample.two_metrics Hacc)
    as (Hempty & _ & _).
  destruct (@empty_and_last_queries Sample.env "loss" Sample.two_metrics Hloss)
    as (_ & Hlast & _).
  destruct (Hempty eq_refl) as (Hstat & _ & _ & Hlv).
  split; [exact Hstat|]. split; [exact Hlv|].
  apply (Hlast [Obs (mkObs f1_0 0)] (mkObs f0_8 1)). reflexivity.
Defined.

(** ** The three attributes stay in step *)

Lemma keys_in_sync_empty : keys_in_sync empty_tracker.
Proof. split; simpl; set_solver. Qed.

Lemma keys_in_sync_registered `{Env} name d tr :
  keys_in_sync tr -> keys_in_sync (registered name d tr).
Proof.
  intros [Hnd Hdh]. unfold keys_in_sync, registered; simpl.
  rewrite list_to_set_app_L, !dom_insert_L, Hnd, Hdh.
  split; [|reflexivity]. rewrite list_to_set_singleton_L. apply union_comm_L.
Qed.

Lemma keys_in_sync_names tr name :
  keys_in_sync tr -> name ∈ names tr -> name ∈ dom (metrics_history tr).
Proof.
  intros [Hnd Hdh] Hin. rewrite <- Hdh, <- Hnd. apply elem_of_list_to_set, Hin.
Qed.

(** Storing a history under a name that has one changes no key. *)
Lemma keys_in_sync_store tr name h :
  keys_in_sync tr -> name ∈ dom (metrics_history tr) ->
  keys_in_sync (mkTracker (names tr) (directions tr)
                          (<[name := h]> (metrics_history tr))).
Proof.
  intros [Hnd Hdh] Hin. split; simpl; [assumption|].
  rewrite dom_insert_L, Hdh. symmetry. apply subseteq_union_1_L.
  apply singleton_subseteq_l, Hin.
Qed.

Section Invariant.

Context {E : Env}.

Lemma register_keeps_sync name direction :
  triple keys_in_sync (register name direction)
         (fun _ s => keys_in_sync s /\ name ∈ names s) keys_in_sync.
Proof.
  intros self HI. rewrite register_unfold; cbn zeta.
  destruct (negb _); [assumption|].
  destruct (bool_decide _); [assumption|].
  split; [apply keys_in_sync_registered; assumption|].
  unfold registered; simpl. set_solver.
Qed.

Lemma register_each_keeps_sync metrics :
  triple keys_in_sync (register_each metrics) (fun _ => keys_in_sync) keys_in_sync.
Proof.
  induction metrics as [|m rest IH]; simpl.
  - apply triple_ret. auto.
  - apply triple_bind with (Q := fun _ => keys_in_sync).
    { apply triple_read_only, read_only_lift. }
    intros name.
    apply triple_bind with (Q := fun _ => keys_in_sync); [|intros _; exact IH].
    eapply triple_weaken; [apply register_keeps_sync| | |]; simpl; tauto.
Qed.

(** The step shared by [update] and [set_history]: register the name
    unless it is known, then go on. *)
Lemma ensure_registered_then {B} name (k : M B) R (X : MetricsTracker -> Prop) :
  triple (fun s => keys_in_sync s /\ name ∈ names s) k R X ->
  (forall s, keys_in_sync s -> X s) ->
  triple keys_in_sync
    (bind (exists_ name) (fun known =>
     bind (if negb known then register name None else ret tt) (fun _ => k)))
    R X.
Proof.
  intros Hk HX self HI. unfold bind at 1, exists_, bind at 1, get_self, ret.
  destruct (decide (name ∈ names self)) as [Hin|Hin].
  - rewrite bool_decide_eq_true_2 by assumption. cbn [negb].
    unfold bind at 1. apply Hk. auto.
  - rewrite bool_decide_eq_false_2 by assumption. cbn [negb].
    unfold bind at 1. rewrite register_auto by assumption.
    apply Hk. split; [apply keys_in_sync_registered; assumption|].
    unfold registered; simpl. set_solver.
Qed.

Lemma get_history_keeps P name :
  triple P (get_history name)
         (fun h s => P s /\ metrics_history s !! name = Some h) P.
Proof.
  intros self HP. unfold get_history, bind, get_self, raise, ret.
  destruct (bool_decide _); cbn; [|assumption].
  destruct (metrics_history self !! name) as [h|] eqn:Hh; cbn; auto.
Qed.

Lemma update_keeps_sync name v ti :
  triple keys_in_sync (update name v ti) (fun _ => keys_in_sync) keys_in_sync.
Proof.
  unfold update.
  apply triple_bind with (Q := fun _ => keys_in_sync).
  { apply triple_read_only, read_only_lift. }
  intros x.
  apply ensure_registered_then; [|auto].
  apply triple_bind
    with (Q := fun h s => keys_in_sync s /\ metrics_history s !! name = Some h).
  { eapply triple_weaken;
      [apply (get_history_keeps keys_in_sync)| | |]; simpl; tauto. }
  intros h.
  apply triple_bind
    with (Q := fun _ s => keys_in_sync s /\ metrics_history s !! name = Some h).
  { eapply triple_weaken
      with (P' := fun s => keys_in_sync s /\ metrics_history s !! name = Some h);
      [apply triple_read_only, read_only_lift| | |]; simpl; tauto. }
  intros vs.
  apply triple_bind with (Q := fun _ => keys_in_sync).
  { apply triple_modify. intros s [HI Hh].
    apply keys_in_sync_store; [assumption|].
    apply elem_of_dom. eauto. }
  intros _.
  apply triple_read_only.
  destruct (length vs =? 0)%nat; [apply read_only_ret|].
  apply read_only_bind; [apply read_only_get_direction|]. intros d.
  destruct (String.eqb d "max"); [pure_method_tac|].
  apply read_only_bind; [apply read_only_get_direction|]. intros d'.
  pure_method_tac.
Qed.

Lemma set_history_keeps_sync name series :
  triple keys_in_sync (set_history name series) (fun _ => keys_in_sync) keys_in_sync.
Proof.
  destruct series as [items| |]; simpl;
    try (apply triple_raise; auto).
  apply ensure_registered_then; [|auto].
  apply triple_modify. intros s [HI Hin].
  apply keys_in_sync_store; [assumption|].
  apply keys_in_sync_names; assumption.
Qed.

(** C8. In every tracker reachable from the constructor, with or without
    seed metrics, by any sequence of [register], [register_metrics],
    [update] and [set_history] calls, each of which may return or raise,
    the names, the keys of [directions] and the keys of [metrics_history]
    are the same set. *)
Theorem reachable_keys_in_sync tr : reachable tr -> keys_in_sync tr.
Proof.
  induction 1 as [metrics|o tr Hr IH].
  - unfold __init__, register_metrics.
    apply (triple_fst keys_in_sync keys_in_sync);
      [apply register_each_keeps_sync|apply keys_in_sync_empty].
  - destruct o as [name direction|metrics|name v ti|name series]; simpl;
      apply (triple_fst keys_in_sync keys_in_sync); try assumption.
    + eapply triple_weaken; [apply register_keeps_sync| | |]; simpl; tauto.
    + apply register_each_keeps_sync.
    + apply update_keeps_sync.
    + apply set_history_keeps_sync.
Qed.

End Invariant.

Lemma reachable_keys_in_sync_witness :
  keys_in_sync
    (@after Sample.env (@Register Sample.env "loss" (Some "max"))
       (@after Sample.env (@Update Sample.env "loss" (Sample.PyFloat f1_0) 0)
          (fst (@__init__ Sample.env (Some [MObj (KInstance "AUC" "" "auc")]))))).
Proof.
  apply (@reachable_keys_in_sync Sample.env).
  apply reachable_step, reachable_step, reachable_init.
Defined.

(** ** Export and import *)

Section Config.

Context {E : Env}.

Lemma mapR_star_observations data :
  Forall is_observation data -> mapR MetricObservation_star data = Ok data.
Proof.
  induction 1 as [|it data Hit _ IH]; simpl; [reflexivity|].
  destruct it as [[x ti]| |]; simpl in Hit; try contradiction.
  simpl. rewrite IH. reflexivity.
Qed.

Lemma rebuild_histories_observations (mh : gmap string (list pyitem)) :
  (forall name h, mh !! name = Some h -> Forall is_observation h) ->
  rebuild_histories mh = Ok mh.
Proof.
  unfold rebuild_histories.
  apply (map_fold_weak_ind
           (fun r m => (forall name h, m !! name = Some h -> Forall is_observation h)
                       -> r = Ok m)).
  - reflexivity.
  - intros i x m r Hi IH Hall.
    rewrite IH; simpl.
    + rewrite mapR_star_observations; [reflexivity|].
      apply (Hall i). apply lookup_insert_eq.
    + intros name h Hh. apply (Hall name).
      rewrite lookup_insert_ne; [assumption|]. congruence.
Qed.

(** C3. For a tracker whose histories hold observations, the configuration
    [get_config] returns carries its names, directions and histories, and
    [from_config] of that configuration is a tracker with the same names in
    the same order, the same direction for every name, and the same
    observations, value and time index, in the same order for every name;
    exporting changes nothing. *)
Theorem from_config_get_config tr :
  observations_only tr ->
  exists c,
    get_config tr = (tr, Ok c) /\
    cfg_names c = names tr /\
    cfg_directions c = directions tr /\
    cfg_metrics_history c = metrics_history tr /\
    from_config c = Ok tr.
Proof.
  intros Hobs. eexists. split; [reflexivity|]. simpl.
  repeat split. unfold from_config; simpl.
  rewrite rebuild_histories_observations by exact Hobs. simpl.
  destruct tr; reflexivity.
Qed.

End Config.

Lemma from_config_get_config_witness :
  exists c,
    get_config Sample.two_metrics = (Sample.two_metrics, Ok c) /\
    cfg_names c = ["loss"; "accuracy"] /\
    cfg_directions c = directions Sample.two_metrics /\
    cfg_metrics_history c = metrics_history Sample.two_metrics /\
    @from_config Sample.env c = Ok Sample.two_metrics.
Proof.
  apply (@from_config_get_config Sample.env Sample.two_metrics).
  intros name h. unfold Sample.two_metrics; simpl.
  destruct (decide (name = "loss")) as [->|Hl].
  - rewrite lookup_insert_eq. intros [= <-]. repeat constructor.
  - rewrite lookup_insert_ne by congruence.
    destruct (decide (name = "accuracy")) as [->|Ha].
    + rewrite lookup_singleton_eq. intros [= <-]. constructor.
    + rewrite lookup_singleton_ne by congruence. discriminate.
Defined.

(** Items that are not observations do not survive the round trip: a plain
    pair comes back as an observation, a bare number makes the import fail. *)
Example from_config_pair :
  @from_config Sample.env
     (mkConfig ["m"] {[ "m" := "min" ]} {[ "m" := [Pair f1_0 3] ]})
  = Ok (mkTracker ["m"] {[ "m" := "min" ]} {[ "m" := [Obs (mkObs f1_0 3)] ]}).
Proof. vm_compute. reflexivity. Qed.

Example from_config_number :
  @from_config Sample.env
     (mkConfig ["m"] {[ "m" := "min" ]} {[ "m" := [Num f1_0] ]})
  = Raise (TypeError "MetricObservation() argument after * must be an iterable").
Proof. vm_compute. reflexivity. Qed.

(** ** The direction of a metric name *)

Lemma substring_all s : substring 0 (String.length s) s = s.
Proof. induction s as [|c s IH]; simpl; [reflexivity|]. rewrite IH. reflexivity. Qed.

Lemma str_in_In x l : str_in x l = true <-> In x l.
Proof.
  unfold str_in. rewrite existsb_exists. split.
  - intros (y & Hy & Heq). apply String.eqb_eq in Heq. subst y. exact Hy.
  - intros Hx. exists x. split; [exact Hx|apply String.eqb_refl].
Qed.

(** The test and the slices of lines 175-176 compute [canonical_name]. *)
Lemma canonical_name_slices s :
  (if (4 <? String.length s)%nat && String.eqb (prefix4 s) "val_"
   then drop4 s else s) = canonical_name s.
Proof.
  unfold canonical_name, prefix4, drop4.
  destruct s as [|a1 [|a2 [|a3 [|a4 [|a5 rest]]]]];
    try (cbn -[Ascii.eqb]; try reflexivity;
         repeat (destruct (Ascii.eqb _ _); try reflexivity); fail).
  change (4 <? String.length (String a1 (String a2 (String a3 (String a4 (String a5 rest))))))%nat
    with true.
  change (String.length (String a1 (String a2 (String a3 (String a4 (String a5 rest))))) - 4)%nat
    with (String.length (String a5 rest)).
  change (substring 4 (String.length (String a5 rest))
            (String a1 (String a2 (String a3 (String a4 (String a5 rest))))))
    with (substring 0 (String.length (String a5 rest)) (String a5 rest)).
  rewrite substring_all. cbn -[Ascii.eqb].
  rewrite (Ascii.eqb_sym a1), (Ascii.eqb_sym a2), (Ascii.eqb_sym a3), (Ascii.eqb_sym a4).
  repeat (destruct (Ascii.eqb _ _); try reflexivity).
Qed.

Section Direction.

Context {E : Env}.

Lemma direction_of_obj_identity o :
  direction_of_obj o =
    if str_in (identity o) _MAX_METRICS || str_in (identity o) _MAX_METRIC_FNS
    then "max" else "min".
Proof. destruct o; reflexivity. Qed.

Lemma infer_metric_direction_canonical name :
  infer_metric_direction (MStr name) =
    if String.eqb (canonical_name name) "loss" then "min"
    else match keras_metrics_get (canonical_name name) with
         | None => "min"
         | Some o => direction_of_obj o
         end.
Proof. unfold infer_metric_direction. rewrite canonical_name_slices. reflexivity. Qed.

Lemma infer_metric_direction_catalog_canonical get name :
  infer_metric_direction_catalog get (MStr name) =
    if String.eqb (canonical_name name) "loss" then Ok "min"
    else match get (canonical_name name) with
         | Ok o => Ok (direction_of_obj o)
         | Raise (ValueError _) => Ok "min"
         | Raise e => Raise e
         end.
Proof.
  unfold infer_metric_direction_catalog. rewrite canonical_name_slices. reflexivity.
Qed.

(** For a catalog that answers or does not know a name, the classifier
    over the catalog call is [infer_metric_direction]. *)
Lemma infer_metric_direction_answering m :
  infer_metric_direction_catalog (answering keras_metrics_get) m
    = Ok (infer_metric_direction m).
Proof.
  destruct m as [s|o]; [|reflexivity].
  rewrite infer_metric_direction_catalog_canonical, infer_metric_direction_canonical.
  destruct (String.eqb _ "loss"); [reflexivity|].
  unfold answering. destruct (keras_metrics_get _); reflexivity.
Qed.

End Direction.




(** X24. An exception of the catalog other than [ValueError] is not
    caught: unless the canonical name is ["loss"], for which the catalog is
    not consulted, the classifier raises the exception the catalog raises. *)
Theorem infer_metric_direction_propagates get name e :
  canonical_name name <> "loss" ->
  get (canonical_name name) = Raise e ->
  (forall msg, e <> ValueError msg) ->
  infer_metric_direction_catalog get (MStr name) = Raise e.
Proof.
  intros Hloss He Hne. rewrite infer_metric_direction_catalog_canonical.
  apply String.eqb_neq in Hloss. rewrite Hloss, He.
  destruct e as [msg| | | | |]; try reflexivity.
  exfalso. apply (Hne msg). reflexivity.
Qed.

Lemma infer_metric_direction_propagates_witness :
  infer_metric_direction_catalog Sample.keras_like
     (MStr "val_SensitivityAtSpecificity")
    = Raise (TypeError "__init__() missing 1 required positional argument").
Proof.
  apply (infer_metric_direction_propagates Sample.keras_like
           "val_SensitivityAtSpecificity").
  - discriminate.
  - reflexivity.
  - intros msg. discriminate.
Defined.

(** ** The order on floats *)

Ltac compare_cases :=
  repeat match goal with
  | H : context [Z.compare ?x ?y] |- _ => destruct (Z.compare_spec x y)
  | H : context [Pos.compare_cont Eq ?x ?y] |- _ =>
      change (Pos.compare_cont Eq x y) with (Pos.compare x y) in *;
      destruct (Pos.compare_spec x y)
  | |- context [Z.compare ?x ?y] => destruct (Z.compare_spec x y)
  | |- context [Pos.compare_cont Eq ?x ?y] =>
      change (Pos.compare_cont Eq x y) with (Pos.compare x y) in *;
      destruct (Pos.compare_spec x y)
  end.

Ltac float_cases a := destruct a as [[]|[]| |[] ? ?].

Ltac float_order :=
  intros; compare_cases; subst; simpl in *;
  try reflexivity; try discriminate; try lia.

Lemma fle_nonnan a b : fle a b = true -> isnan a = false /\ isnan b = false.
Proof. destruct a, b; simpl; intros H; try discriminate H; auto. Qed.

Lemma flt_fle a b : flt a b = true -> fle a b = true.
Proof.
  unfold flt, fle, SFltb, SFleb. destruct (SFcompare a b) as [[]|]; auto.
Qed.

Lemma fle_refl a : isnan a = false -> fle a a = true.
Proof.
  unfold fle, SFleb, SFcompare. float_cases a; float_order.
Qed.

Lemma fle_total a b :
  isnan a = false -> isnan b = false -> fle a b = negb (flt b a).
Proof.
  unfold fle, flt, SFleb, SFltb, SFcompare.
  float_cases a; float_cases b; float_order.
Qed.

Lemma fle_trans a b c : fle a b = true -> fle b c = true -> fle a c = true.
Proof.
  unfold fle, SFleb, SFcompare.
  float_cases a; float_cases b; try (intros; discriminate);
    float_cases c; float_order.
Qed.

Lemma flt_fle_trans a b c : flt a b = true -> fle b c = true -> flt a c = true.
Proof.
  unfold flt, fle, SFltb, SFleb, SFcompare.
  float_cases a; float_cases b; try (intros; discriminate);
    float_cases c; float_order.
Qed.

Lemma fle_flt_trans a b c : fle a b = true -> flt b c = true -> flt a c = true.
Proof.
  unfold flt, fle, SFltb, SFleb, SFcompare.
  float_cases a; float_cases b; try (intros; discriminate);
    float_cases c; float_order.
Qed.

Lemma flt_feq a b : flt a b = true -> feq a b = false /\ feq b a = false.
Proof.
  unfold flt, feq, SFltb, SFeqb, SFcompare.
  float_cases a; float_cases b; float_order; split; float_order.
Qed.

(** ** Extrema, for either direction

    [le a b] reads: [a] is at least as extreme as [b]; [lt] is its strict
    part.  The lemmas are used at [fle], [flt] for a minimum and at [fge],
    [fgt] for a maximum. *)

Section Extremum.

Variables le lt : float -> float -> bool.

Hypothesis le_nonnan : forall a b, le a b = true -> isnan a = false /\ isnan b = false.
Hypothesis lt_le : forall a b, lt a b = true -> le a b = true.
Hypothesis le_refl : forall a, isnan a = false -> le a a = true.
Hypothesis le_total :
  forall a b, isnan a = false -> isnan b = false -> le a b = negb (lt b a).
Hypothesis le_trans : forall a b c, le a b = true -> le b c = true -> le a c = true.
Hypothesis lt_le_trans : forall a b c, lt a b = true -> le b c = true -> lt a c = true.

(** The scan of [np.argmin] or [np.argmax]. *)
Variable scan : float -> nat -> nat -> list float -> nat.
Hypothesis scan_eq : forall mp ibest i l,
  scan mp ibest i l =
    if isnan mp then ibest else
    match l with
    | [] => ibest
    | x :: l' => if negb (le mp x) then scan x i (S i) l' else scan mp ibest (S i) l'
    end.

#[local] Abbreviation pick := (fun best y : float => if lt y best then y else best).
#[local] Abbreviation reduce := (fun a b : float => if le a b || isnan b then a else b).

(** The builtin [min] or [max] of a list without NaN is an item of the
    list that is at least as extreme as every item. *)
Lemma pick_fold_spec l x :
  Forall (fun p => isnan p = false) (x :: l) ->
  In (fold_left pick l x) (x :: l) /\
  forall p, In p (x :: l) -> le (fold_left pick l x) p = true.
Proof.
  revert x. induction l as [|y l IH]; intros x Hnn.
  - simpl. split; [auto|]. intros p [<-|[]]. apply le_refl.
    inversion Hnn; assumption.
  - inversion Hnn as [|? ? Hx Hyl]; subst. inversion Hyl as [|? ? Hy Hl]; subst.
    cbn [fold_left].
    assert (Hb : isnan (pick x y) = false) by (destruct (lt y x); assumption).
    destruct (IH (pick x y)) as [Hin Hle]; [constructor; assumption|].
    assert (Hbx : le (pick x y) x = true).
    { destruct (lt y x) eqn:Hlt; [apply lt_le, Hlt|apply le_refl, Hx]. }
    assert (Hby : le (pick x y) y = true).
    { destruct (lt y x) eqn:Hlt; [apply le_refl, Hy|].
      rewrite le_total, Hlt by assumption. reflexivity. }
    split.
    + destruct Hin as [Hin|Hin]; [|right; right; exact Hin].
      rewrite <- Hin. destruct (lt y x); simpl; auto.
    + intros p [<-|[<-|Hp]].
      * apply le_trans with (pick x y); [apply Hle; left; reflexivity|exact Hbx].
      * apply le_trans with (pick x y); [apply Hle; left; reflexivity|exact Hby].
      * apply Hle. right. exact Hp.
Qed.

(** On a list without NaN the scan stops at the item the builtin returns,
    and every earlier item is strictly less extreme. *)
Lemma scan_spec l pre mp ibest :
  Forall (fun p => isnan p = false) (mp :: l) ->
  pre !! ibest = Some mp ->
  (forall j p, (j < ibest)%nat -> pre !! j = Some p -> lt mp p = true) ->
  (forall p, In p pre -> le mp p = true) ->
  (pre ++ l) !! scan mp ibest (length pre) l = Some (fold_left pick l mp) /\
  (forall j p, (j < scan mp ibest (length pre) l)%nat -> (pre ++ l) !! j = Some p ->
               lt (fold_left pick l mp) p = true).
Proof.
  revert pre mp ibest. induction l as [|x l IH]; intros pre mp ibest Hnn Hat Hbefore Hall.
  - inversion Hnn as [|? ? Hmp _]; subst.
    rewrite scan_eq, Hmp, app_nil_r. simpl. auto.
  - inversion Hnn as [|? ? Hmp Hxl]; subst. inversion Hxl as [|? ? Hx Hl]; subst.
    rewrite scan_eq, Hmp. cbn [fold_left].
    rewrite (le_total mp x), negb_involutive by assumption.
    replace (pre ++ x :: l) with ((pre ++ [x]) ++ l) by (rewrite <- app_assoc; reflexivity).
    replace (S (length pre)) with (length (pre ++ [x]))
      by (rewrite length_app; simpl; lia).
    destruct (lt x mp) eqn:Hlt.
    + apply IH.
      * constructor; assumption.
      * rewrite lookup_app_r by lia. rewrite Nat.sub_diag. reflexivity.
      * intros j p Hj Hp. rewrite lookup_app_l in Hp by exact Hj.
        apply lt_le_trans with mp; [exact Hlt|].
        apply Hall. apply list_elem_of_In. eapply list_elem_of_lookup_2. exact Hp.
      * intros p Hp. apply in_app_or in Hp as [Hp|[<-|[]]].
        -- apply le_trans with mp; [apply lt_le, Hlt|apply Hall, Hp].
        -- apply le_refl, Hx.
    + apply IH.
      * constructor; assumption.
      * rewrite lookup_app_l; [exact Hat|]. eapply lookup_lt_Some. exact Hat.
      * intros j p Hj Hp. apply (Hbefore j p Hj).
        rewrite lookup_app_l in Hp; [exact Hp|].
        apply lookup_lt_Some in Hat. lia.
      * intros p Hp. apply in_app_or in Hp as [Hp|[<-|[]]]; [apply Hall, Hp|].
        rewrite le_total, Hlt by assumption. reflexivity.
Qed.


Lemma reduce_fold_spec l x :
  Exists (fun p => isnan p = false) (x :: l) ->
  isnan (fold_left reduce l x) = false /\
  In (fold_left reduce l x) (x :: l) /\
  forall p, In p (x :: l) -> isnan p = false -> le (fold_left reduce l x) p = true.
Proof.
  revert x. induction l as [|y l IH]; intros x Hex.
  - apply Exists_cons in Hex as [Hx|Hex]; [|inversion Hex].
    simpl. split; [exact Hx|]. split; [auto|].
    intros p [<-|[]] _. apply le_refl, Hx.
  - cbn [fold_left].
    destruct (isnan y) eqn:Hy.
    + rewrite orb_true_r.
      destruct (IH x) as (Hr & Hin & Hle).
      { apply Exists_cons in Hex as [Hx|Hex]; [left; exact Hx|].
        apply Exists_cons in Hex as [Hy'|Hex]; [congruence|right; exact Hex]. }
      split; [exact Hr|]. split.
      * destruct Hin as [Hin|Hin]; [left; exact Hin|right; right; exact Hin].
      * intros p [<-|[<-|Hp]] Hp'; [apply Hle; [left; reflexivity|exact Hp']
                                   |congruence|apply Hle; [right; exact Hp|exact Hp']].
    + rewrite orb_false_r.
      destruct (isnan x) eqn:Hx.
      * assert (Hlexy : le x y = false).
        { destruct (le x y) eqn:Hl; [|reflexivity].
          apply le_nonnan in Hl as [Hl _]. congruence. }
        rewrite Hlexy.
        destruct (IH y) as (Hr & Hin & Hle); [left; exact Hy|].
        split; [exact Hr|]. split; [right; exact Hin|].
        intros p [<-|Hp] Hp'; [congruence|apply Hle; assumption].
      * destruct (le x y) eqn:Hl.
        -- destruct (IH x) as (Hr & Hin & Hle); [left; exact Hx|].
           split; [exact Hr|]. split.
           ++ destruct Hin as [Hin|Hin]; [left; exact Hin|right; right; exact Hin].
           ++ intros p [<-|[<-|Hp]] Hp'.
              ** apply Hle; [left; reflexivity|exact Hx].
              ** apply le_trans with x; [apply Hle; [left; reflexivity|exact Hx]|exact Hl].
              ** apply Hle; [right; exact Hp|exact Hp'].
        -- destruct (IH y) as (Hr & Hin & Hle); [left; exact Hy|].
           split; [exact Hr|]. split; [right; exact Hin|].
           intros p [<-|Hp] Hp'; [|apply Hle; assumption].
           apply le_trans with y; [apply Hle; [left; reflexivity|exact Hy]|].
           apply lt_le. rewrite le_total in Hl by assumption.
           apply negb_false_iff in Hl. exact Hl.
Qed.



End Extremum.

(** ** Best value and best time index, without NaN *)

Lemma argmin_scan_eq mp ibest i l :
  argmin_scan mp ibest i l =
    if isnan mp then ibest else
    match l with
    | [] => ibest
    | x :: l' => if negb (fle mp x) then argmin_scan x i (S i) l'
                 else argmin_scan mp ibest (S i) l'
    end.
Proof. destruct l; reflexivity. Qed.

Lemma argmax_scan_eq mp ibest i l :
  argmax_scan mp ibest i l =
    if isnan mp then ibest else
    match l with
    | [] => ibest
    | x :: l' => if negb (fge mp x) then argmax_scan x i (S i) l'
                 else argmax_scan mp ibest (S i) l'
    end.
Proof. destruct l; reflexivity. Qed.

Lemma fge_nonnan a b : fge a b = true -> isnan a = false /\ isnan b = false.
Proof. intros H. apply fle_nonnan in H. tauto. Qed.

Lemma fge_total a b :
  isnan a = false -> isnan b = false -> fge a b = negb (fgt b a).
Proof. intros Ha Hb. apply fle_total; assumption. Qed.

Lemma mapR_attr_value_items h vs :
  mapR attr_value h = Ok vs ->
  forall i, match h !! i with
            | Some (Obs o) => vs !! i = Some (value o)
            | Some _ => False
            | None => vs !! i = None
            end.
Proof.
  revert vs. induction h as [|it h IH]; intros vs Hvs i.
  - injection Hvs as <-. reflexivity.
  - simpl in Hvs. destruct it as [o| |]; simpl in Hvs; try discriminate.
    destruct (mapR attr_value h) as [vs'|]; simpl in Hvs; [|discriminate].
    injection Hvs as <-. destruct i as [|i]; simpl; [reflexivity|].
    apply IH. reflexivity.
Qed.

Section BestNoNaN.

Context {E : Env}.

Variables (name : string) (tr : MetricsTracker) (h : list pyitem)
          (vs : list float) (d : string).
Hypothesis Hname : name ∈ names tr.
Hypothesis Hh : metrics_history tr !! name = Some h.
Hypothesis Hvs : mapR attr_value h = Ok vs.
Hypothesis Hd : directions tr !! name = Some d.
Hypothesis Hvalid : valid_direction d.


Lemma get_direction_registered : get_direction name tr = (tr, Ok d).
Proof. unfold get_direction, bind, get_self. rewrite Hd. reflexivity. Qed.

Lemma history_values_nonempty : h <> [] -> exists p ps, vs = p :: ps.
Proof.
  intros Hne. destruct vs as [|p ps]; [|eauto].
  apply mapR_attr_value_nil in Hvs. contradiction.
Qed.

Lemma history_length_nonzero : h <> [] -> (length h =? 0)%nat = false.
Proof. destruct h; [contradiction|reflexivity]. Qed.

(** X4. Without NaN among the recorded values, [get_best_value] returns
    one of them, at least as extreme as each of them. *)
Lemma get_best_value_no_nan :
  h <> [] -> no_nan vs ->
  exists r,
    get_best_value name tr = (tr, Ok (Some r)) /\
    In r vs /\
    forall p, In p vs -> at_least_as_extreme d r p = true.
Proof.
  intros Hne Hnn. destruct (history_values_nonempty Hne) as (p & ps & Hps).
  unfold get_best_value, bind at 1.
  rewrite (get_history_registered _ _ _ Hname Hh), (history_length_nonzero Hne).
  unfold bind at 1, lift. rewrite Hvs.
  unfold bind at 1. rewrite get_direction_registered.
  rewrite Hps in *. unfold at_least_as_extreme.
  destruct Hvalid as [-> | ->]; simpl String.eqb; cbv iota;
    unfold bind, lift, ret, py_min, py_max; eexists; (split; [reflexivity|]).
  - apply (pick_fold_spec fle flt flt_fle fle_refl fle_total fle_trans ps p Hnn).
  - apply (pick_fold_spec fge fgt (fun a b => flt_fle b a) fle_refl fge_total
             (fun a b c H1 H2 => fle_trans c b a H2 H1) ps p Hnn).
Qed.

(** X5. Without NaN among the recorded values, [get_best_t] returns the
    time index of the observation whose value [get_best_value] returns, and
    that observation is the first with so extreme a value: the value of every
    earlier observation is strictly less extreme. *)
Lemma get_best_t_no_nan :
  h <> [] -> no_nan vs ->
  exists r i o,
    get_best_value name tr = (tr, Ok (Some r)) /\
    get_best_t name tr = (tr, Ok (Some (t o))) /\
    h !! i = Some (Obs o) /\ value o = r /\
    forall j o', (j < i)%nat -> h !! j = Some (Obs o') ->
                 more_extreme d r (value o') = true.
Proof.
  intros Hne Hnn. destruct (history_values_nonempty Hne) as (p & ps & Hps).
  assert (Hscan : exists r i,
            get_best_value name tr = (tr, Ok (Some r)) /\
            (if String.eqb d "min" then np_argmin vs else np_argmax vs) = Ok i /\
            vs !! i = Some r /\
            forall j q, (j < i)%nat -> vs !! j = Some q -> more_extreme d r q = true).
  { unfold get_best_value, bind at 1.
    rewrite (get_history_registered _ _ _ Hname Hh), (history_length_nonzero Hne).
    unfold bind at 1, lift. rewrite Hvs.
    unfold bind at 1. rewrite get_direction_registered.
    rewrite Hps in *. unfold more_extreme.
    destruct Hvalid as [-> | ->]; simpl String.eqb; cbv iota;
      unfold bind, lift, ret, py_min, py_max, np_argmin, np_argmax;
      do 2 eexists; (split; [reflexivity|]); (split; [reflexivity|]).
    - apply (scan_spec fle flt flt_fle fle_refl fle_total fle_trans flt_fle_trans
               argmin_scan argmin_scan_eq ps [p] p 0 Hnn eq_refl).
      + intros j q Hj. lia.
      + intros q [<-|[]]. apply fle_refl. inversion Hnn; assumption.
    - apply (scan_spec fge fgt (fun a b => flt_fle b a) fle_refl fge_total
               (fun a b c H1 H2 => fle_trans c b a H2 H1)
               (fun a b c H1 H2 => fle_flt_trans c b a H2 H1)
               argmax_scan argmax_scan_eq ps [p] p 0 Hnn eq_refl).
      + intros j q Hj. lia.
      + intros q [<-|[]]. apply fle_refl. inversion Hnn; assumption. }
  destruct Hscan as (r & i & Hbest & Harg & Hi & Hearlier).
  pose proof (mapR_attr_value_items h vs Hvs i) as Hitem.
  destruct (h !! i) as [[o| |]|] eqn:Hhi; try contradiction; [|congruence].
  exists r, i, o. split; [exact Hbest|]. split.
  - unfold get_best_t, bind at 1.
    rewrite (get_history_registered _ _ _ Hname Hh), (history_length_nonzero Hne).
    unfold bind at 1, lift. rewrite Hvs.
    unfold bind at 1. rewrite get_direction_registered.
    unfold bind at 1. fold (@lift nat (np_argmin vs)) (@lift nat (np_argmax vs)).
    replace ((if String.eqb d "min" then lift (np_argmin vs) else lift (np_argmax vs)) tr)
      with (tr, if String.eqb d "min" then np_argmin vs else np_argmax vs)
      by (destruct (String.eqb d "min"); reflexivity).
    rewrite Harg, Hhi. reflexivity.
  - split; [exact Hhi|]. split; [congruence|].
    intros j o' Hj Hhj. apply (Hearlier j); [exact Hj|].
    pose proof (mapR_attr_value_items h vs Hvs j) as Hitem'.
    rewrite Hhj in Hitem'. exact Hitem'.
Qed.

End BestNoNaN.

(** ** The examples of the specification *)

Example updates_accuracy :
  let '(tr, answers) :=
    @run_updates Sample.env "accuracy"
      [(Sample.PyFloat f0_5, 0%Z); (Sample.PyFloat f0_7, 1%Z); (Sample.PyFloat f0_6, 2%Z)]
      empty_tracker in
  answers = [Ok (Some true); Ok (Some true); Ok (Some false)] /\
  snd (get_best_value "accuracy" tr) = Ok (Some f0_7) /\
  snd (get_best_t "accuracy" tr) = Ok (Some 1%Z) /\
  snd (get_last_value "accuracy" tr) = Ok (Some f0_6).
Proof. vm_compute. repeat split. Qed.

Example updates_loss :
  let '(tr, answers) :=
    @run_updates Sample.env "loss"
      [(Sample.PyFloat f1_0, 0%Z); (Sample.PyFloat f0_8, 1%Z); (Sample.PyFloat f0_9, 2%Z)]
      empty_tracker in
  answers = [Ok (Some true); Ok (Some true); Ok (Some false)] /\
  snd (get_best_value "loss" tr) = Ok (Some f0_8) /\
  snd (get_best_t "loss" tr) = Ok (Some 1%Z).
Proof. vm_compute. repeat split. Qed.

Example tie_break_earliest :
  let '(tr, answers) :=
    @run_updates Sample.env "accuracy"
      [(Sample.PyFloat f0_7, 1%Z); (Sample.PyFloat f0_7, 5%Z)] empty_tracker in
  answers = [Ok (Some true); Ok (Some true)] /\
  snd (get_best_t "accuracy" tr) = Ok (Some 1%Z).
Proof. vm_compute. repeat split. Qed.

(** ** Histories with NaN *)

(** C1, where the code departs from it.  A first observation NaN is
    recorded and counts as best.  The next call records the value 1.0 as
    well, but answers false, for a minimised and for a maximised metric
    alike, although every prior value is NaN: the reduction of the prior
    values is NaN, and no value compares with NaN. *)
Theorem update_after_nan_only :
  @run_updates Sample.env "loss"
     [(Sample.PyFloat nan, 0%Z); (Sample.PyFloat f1_0, 1%Z)] empty_tracker
  = (mkTracker ["loss"] {[ "loss" := "min" ]}
               {[ "loss" := [Obs (mkObs nan 0); Obs (mkObs f1_0 1)] ]},
     [Ok (Some true); Ok (Some false)]) /\
  @run_updates Sample.env "accuracy"
     [(Sample.PyFloat nan, 0%Z); (Sample.PyFloat f1_0, 1%Z)] empty_tracker
  = (mkTracker ["accuracy"] {[ "accuracy" := "max" ]}
               {[ "accuracy" := [Obs (mkObs nan 0); Obs (mkObs f1_0 1)] ]},
     [Ok (Some true); Ok (Some false)]).
Proof. split; vm_compute; reflexivity. Qed.

(** C2, where the code departs from it.  With the losses NaN then 0.8
    recorded, [get_best_value] returns NaN: the builtin [min] keeps its first
    item, since nothing is less than NaN.  The NaN-aware minimum of the same
    values, as [get_statistics] computes it, is 0.8. *)
Theorem get_best_value_nan_first :
  metrics_history nan_then_0_8 !! "loss"
    = Some [Obs (mkObs nan 0); Obs (mkObs f0_8 1)] /\
  directions nan_then_0_8 !! "loss" = Some "min" /\
  get_best_value "loss" nan_then_0_8 = (nan_then_0_8, Ok (Some nan)) /\
  np_nanmin [nan; f0_8] = Ok f0_8.
Proof. repeat split; vm_compute; reflexivity. Qed.

(** C6, where the code departs from it.  With the losses 1.0 at time 0
    then NaN at time 1 recorded, [get_best_value] returns 1.0 but
    [get_best_t] returns 1, the time index of the NaN observation: for
    [np.argmin] a NaN is the minimum. *)
Theorem get_best_t_nan :
  metrics_history one_then_nan !! "loss"
    = Some [Obs (mkObs f1_0 0); Obs (mkObs nan 1)] /\
  directions one_then_nan !! "loss" = Some "min" /\
  get_best_value "loss" one_then_nan = (one_then_nan, Ok (Some f1_0)) /\
  get_best_t "loss" one_then_nan = (one_then_nan, Ok (Some 1%Z)).
Proof. repeat split; vm_compute; reflexivity. Qed.

(** ** Invariants of the operations *)

Section Frame.

Context {E : Env}.

Lemma ensure_registered_keeps {B} (I : MetricsTracker -> Prop) name (k : M B) R
  (X : MetricsTracker -> Prop) :
  kept_by_operations I ->
  triple (fun s => I s /\ name ∈ names s) k R X ->
  triple I
    (bind (exists_ name) (fun known =>
     bind (if negb known then register name None else ret tt) (fun _ => k)))
    R X.
Proof.
  intros [Hreg _] Hk self HI. unfold bind at 1, exists_, bind at 1, get_self, ret.
  destruct (decide (name ∈ names self)) as [Hin|Hin].
  - rewrite bool_decide_eq_true_2 by assumption. cbn [negb].
    unfold bind at 1. apply Hk. auto.
  - rewrite bool_decide_eq_false_2 by assumption. cbn [negb].
    unfold bind at 1. rewrite register_auto by assumption.
    apply Hk. split.
    + apply Hreg; [assumption..|apply infer_metric_direction_valid].
    + unfold registered; simpl. set_solver.
Qed.

Lemma register_keeps (I : MetricsTracker -> Prop) name direction :
  kept_by_operations I ->
  triple I (register name direction) (fun _ => I) I.
Proof.
  intros [Hreg _] self HI. rewrite register_unfold; cbn zeta.
  destruct (str_in _ _) eqn:Hd; simpl; [|assumption].
  destruct (bool_decide _) eqn:Hn; [assumption|].
  apply Hreg; [assumption| |apply str_in_min_max, Hd].
  apply bool_decide_eq_false in Hn. exact Hn.
Qed.

Lemma register_each_keeps (I : MetricsTracker -> Prop) metrics :
  kept_by_operations I ->
  triple I (register_each metrics) (fun _ => I) I.
Proof.
  intros HI. induction metrics as [|m rest IH]; simpl.
  - apply triple_ret. auto.
  - apply triple_bind with (Q := fun _ => I).
    { apply triple_read_only, read_only_lift. }
    intros name.
    apply triple_bind with (Q := fun _ => I); [|intros _; exact IH].
    apply register_keeps, HI.
Qed.

Lemma update_keeps (I : MetricsTracker -> Prop) name v ti :
  kept_by_operations I ->
  triple I (update name v ti) (fun _ => I) I.
Proof.
  intros HI. unfold update.
  apply triple_bind with (Q := fun _ => I).
  { apply triple_read_only, read_only_lift. }
  intros x.
  apply ensure_registered_keeps; [exact HI|].
  apply triple_bind with (Q := fun _ s => I s /\ name ∈ names s).
  { eapply triple_weaken with (P' := fun s => I s /\ name ∈ names s);
      [apply triple_read_only, read_only_get_history| | |]; simpl; tauto. }
  intros h.
  apply triple_bind with (Q := fun _ s => I s /\ name ∈ names s).
  { eapply triple_weaken with (P' := fun s => I s /\ name ∈ names s);
      [apply triple_read_only, read_only_lift| | |]; simpl; tauto. }
  intros vs.
  apply triple_bind with (Q := fun _ => I).
  { apply triple_modify. intros s [Hs Hin]. apply (proj2 HI s name); assumption. }
  intros _.
  apply triple_read_only.
  destruct (length vs =? 0)%nat; [apply read_only_ret|].
  apply read_only_bind; [apply read_only_get_direction|]. intros d.
  destruct (String.eqb d "max"); [pure_method_tac|].
  apply read_only_bind; [apply read_only_get_direction|]. intros d'.
  pure_method_tac.
Qed.

Lemma set_history_keeps (I : MetricsTracker -> Prop) name series :
  kept_by_operations I ->
  triple I (set_history name series) (fun _ => I) I.
Proof.
  intros HI. destruct series as [items| |]; simpl; try (apply triple_raise; auto).
  apply ensure_registered_keeps; [exact HI|].
  apply triple_modify. intros s [Hs Hin]. apply (proj2 HI s name); assumption.
Qed.

Lemma after_keeps (I : MetricsTracker -> Prop) o tr :
  kept_by_operations I -> I tr -> I (after o tr).
Proof.
  intros HI Htr.
  destruct o as [name direction|metrics|name v ti|name series]; simpl;
    apply (triple_fst I I); try assumption.
  - apply register_keeps, HI.
  - apply register_each_keeps, HI.
  - apply update_keeps, HI.
  - apply set_history_keeps, HI.
Qed.

Lemma reachable_keeps (I : MetricsTracker -> Prop) tr :
  kept_by_operations I -> I empty_tracker -> reachable tr -> I tr.
Proof.
  intros HI Hempty. induction 1 as [metrics|o tr Hr IH].
  - unfold __init__, register_metrics.
    apply (triple_fst I I); [apply register_each_keeps, HI|exact Hempty].
  - apply after_keeps; assumption.
Qed.

End Frame.

(** ** What the operations keep *)

Section Kept.

Context {E : Env}.

Lemma keys_in_sync_kept : kept_by_operations keys_in_sync.
Proof.
  split.
  - intros s n d Hs _ _. apply keys_in_sync_registered, Hs.
  - intros s n h Hs Hin. apply keys_in_sync_store; [exact Hs|].
    apply keys_in_sync_names; assumption.
Qed.

Lemma names_nodup_kept : kept_by_operations (fun s => NoDup (names s)).
Proof.
  split.
  - intros s n d Hs Hn _. unfold registered; simpl.
    apply NoDup_app. split; [exact Hs|]. split.
    + intros x Hx Hx'. apply list_elem_of_singleton in Hx'. subst x. contradiction.
    + apply NoDup_singleton.
  - intros s n h Hs _. exact Hs.
Qed.

Lemma directions_valid_kept : kept_by_operations directions_valid.
Proof.
  split.
  - intros s n d Hs _ Hd name d'. unfold registered; simpl.
    destruct (decide (n = name)) as [->|Hne].
    + rewrite lookup_insert_eq. intros [= <-]. exact Hd.
    + rewrite lookup_insert_ne by exact Hne. apply Hs.
  - intros s n h Hs _. exact Hs.
Qed.

Lemma extends_kept tr0 : kept_by_operations (extends tr0).
Proof.
  split.
  - intros s n d [[new Hnew] Hdir] Hn _. split.
    + exists (new ++ [n]). unfold registered; simpl.
      rewrite Hnew, app_assoc. reflexivity.
    + intros name Hname. unfold registered; simpl.
      rewrite lookup_insert_ne; [apply Hdir, Hname|].
      intros ->. apply Hn. rewrite Hnew. apply elem_of_app. left. exact Hname.
  - intros s n h Hs _. exact Hs.
Qed.

Lemma kept_by_operations_and (I J : MetricsTracker -> Prop) :
  kept_by_operations I -> kept_by_operations J ->
  kept_by_operations (fun s => I s /\ J s).
Proof.
  intros [HI1 HI2] [HJ1 HJ2]. split.
  - intros s n d [Hi Hj] Hn Hd. split; [apply HI1|apply HJ1]; assumption.
  - intros s n h [Hi Hj] Hn. split; [apply HI2|apply HJ2]; assumption.
Qed.

(** X7. Whatever a call to [register], [register_metrics], [update] or
    [set_history] does, and whether it returns or raises, the names
    registered before it are still there, first and in the same order (new
    names are appended after them), and each keeps its direction. *)
Theorem operations_keep_registrations o tr : extends tr (after o tr).
Proof.
  apply after_keeps; [apply extends_kept|].
  split; [exists []; rewrite app_nil_r; reflexivity|auto].
Qed.

(** X8. In every tracker reachable from the constructor by [register],
    [register_metrics], [update] and [set_history] calls, no name occurs
    twice in [names]. *)
Theorem reachable_names_nodup tr : reachable tr -> NoDup (names tr).
Proof.
  apply (reachable_keeps (fun s => NoDup (names s)));
    [apply names_nodup_kept|apply NoDup_nil_2].
Qed.

Lemma reachable_registered tr name :
  reachable tr -> name ∈ names tr ->
  exists d h,
    directions tr !! name = Some d /\ valid_direction d /\
    metrics_history tr !! name = Some h.
Proof.
  intros Hr Hin.
  assert (HI : keys_in_sync tr /\ directions_valid tr).
  { apply (reachable_keeps (fun s => keys_in_sync s /\ directions_valid s));
      [apply kept_by_operations_and;
         [apply keys_in_sync_kept|apply directions_valid_kept]| |exact Hr].
    split; [apply keys_in_sync_empty|]. intros n d Hd.
    simpl in Hd. rewrite lookup_empty in Hd. discriminate. }
  destruct HI as [Hsync Hvalid].
  pose proof (keys_in_sync_names _ _ Hsync Hin) as Hh.
  apply elem_of_dom in Hh as [h Hh].
  assert (Hd : name ∈ dom (directions tr)).
  { destruct Hsync as [Hnd _]. rewrite <- Hnd. apply elem_of_list_to_set, Hin. }
  apply elem_of_dom in Hd as [d Hd].
  exists d, h. split; [exact Hd|]. split; [apply (Hvalid name), Hd|exact Hh].
Qed.

(** X9. In every reachable tracker each registered name has a history
    and a direction, and the direction is ["min"] or ["max"]: [get_history]
    on a registered name returns, it never raises a [KeyError]. *)
Theorem reachable_registered_complete tr name :
  reachable tr -> name ∈ names tr ->
  exists d h,
    directions tr !! name = Some d /\ valid_direction d /\
    get_history name tr = (tr, Ok h).
Proof.
  intros Hr Hin.
  destruct (reachable_registered tr name Hr Hin) as (d & h & Hd & Hv & Hh).
  exists d, h. split; [exact Hd|]. split; [exact Hv|].
  apply get_history_registered; assumption.
Qed.

(** X10. On a reachable tracker, whenever [update] returns, it returns
    a bool, never Python's [None]: the direction of a registered metric is
    always ["min"] or ["max"]. *)
Theorem update_returns_bool tr name v ti :
  reachable tr ->
  match snd (update name v ti tr) with
  | Ok r => exists b, r = Some b
  | Raise _ => True
  end.
Proof.
  intros Hr.
  destruct (py_float v) as [x|e] eqn:Hx.
  2:{ unfold update, bind, lift. rewrite Hx. exact I. }
  destruct (decide (name ∈ names tr)) as [Hin|Hin].
  2:{ rewrite (update_fresh _ _ _ _ _ Hx Hin). simpl. eauto. }
  destruct (reachable_registered tr name Hr Hin)
    as (d & h & Hd & Hvalid & Hh).
  destruct (mapR attr_value h) as [vs|e] eqn:Hvs.
  - rewrite (update_registered _ _ _ _ _ _ _ _ Hx Hin Hh Hvs Hd Hvalid).
    simpl. eauto.
  - unfold update, bind at 1, lift. rewrite Hx.
    unfold bind at 1, exists_, bind at 1, get_self, ret.
    rewrite bool_decide_eq_true_2 by assumption. cbn [negb].
    unfold bind at 1, ret. unfold bind at 1.
    rewrite (get_history_registered _ _ _ Hin Hh).
    unfold bind at 1, lift. rewrite Hvs. exact I.
Qed.

End Kept.

(** ** Errors and effects of the queries *)

Section Queries.

Context {E : Env}.

(** X1. On a name that is not registered, [get_history] and the four
    queries [get_best_value], [get_best_t], [get_statistics] and
    [get_last_value] raise the unknown-metric error, and the tracker is
    unchanged: a query never registers a name. *)
Theorem queries_unknown_metric name tr :
  name ∉ names tr ->
  get_history name tr = (tr, Raise (UnknownMetric name)) /\
  get_best_value name tr = (tr, Raise (UnknownMetric name)) /\
  get_best_t name tr = (tr, Raise (UnknownMetric name)) /\
  get_statistics name tr = (tr, Raise (UnknownMetric name)) /\
  get_last_value name tr = (tr, Raise (UnknownMetric name)).
Proof.
  intros Hin. pose proof (get_history_unknown name tr Hin) as Hh.
  split; [exact Hh|].
  unfold get_best_value, get_best_t, get_statistics, get_last_value, bind.
  rewrite Hh. auto.
Qed.

(** X2. The queries never change the tracker, whether they return or
    raise: [get_history], [get_best_value], [get_best_t], [get_statistics],
    [get_last_value] and [get_config] leave names, directions and histories
    as they were. *)
Theorem queries_read_only name tr :
  fst (get_history name tr) = tr /\
  fst (get_best_value name tr) = tr /\
  fst (get_best_t name tr) = tr /\
  fst (get_statistics name tr) = tr /\
  fst (get_last_value name tr) = tr /\
  fst (get_config tr) = tr.
Proof.
  repeat split.
  - apply read_only_get_history.
  - apply read_only_get_best_value.
  - apply read_only_get_best_t.
  - apply read_only_get_statistics.
  - apply read_only_get_last_value.
Qed.


Lemma mapR_attr_value_not_observation h :
  ~ Forall is_observation h -> mapR attr_value h = Raise (AttributeError "value").
Proof.
  induction h as [|it h IH]; intros Hnot.
  - exfalso. apply Hnot. constructor.
  - simpl. destruct it as [o| |]; try reflexivity. simpl.
    rewrite IH; [reflexivity|].
    intros Hall. apply Hnot. constructor; [exact I|exact Hall].
Qed.

(** X11. When the history of a registered name holds an item that is not
    an observation, [update] on that name raises an [AttributeError] before
    anything is appended, and [get_best_value], [get_best_t] and
    [get_statistics] raise it too; the tracker is unchanged in each case. *)
Theorem non_observation_history name tr h v x ti :
  name ∈ names tr ->
  metrics_history tr !! name = Some h ->
  ~ Forall is_observation h ->
  py_float v = Ok x ->
  update name v ti tr = (tr, Raise (AttributeError "value")) /\
  get_best_value name tr = (tr, Raise (AttributeError "value")) /\
  get_best_t name tr = (tr, Raise (AttributeError "value")) /\
  get_statistics name tr = (tr, Raise (AttributeError "value")).
Proof.
  intros Hin Hh Hnot Hx.
  pose proof (mapR_attr_value_not_observation h Hnot) as Hvs.
  assert (Hlen : (length h =? 0)%nat = false).
  { destruct h; [|reflexivity]. exfalso. apply Hnot. constructor. }
  split.
  { unfold update, bind at 1, lift. rewrite Hx.
    unfold bind at 1, exists_, bind at 1, get_self, ret.
    rewrite bool_decide_eq_true_2 by assumption. cbn [negb].
    unfold bind at 1, ret. unfold bind at 1.
    rewrite (get_history_registered _ _ _ Hin Hh).
    unfold bind at 1, lift. rewrite Hvs. reflexivity. }
  unfold get_best_value, get_best_t, get_statistics, bind.
  rewrite (get_history_registered _ _ _ Hin Hh), Hlen.
  unfold lift. rewrite Hvs. auto.
Qed.


End Queries.

(** ** Importing a configuration *)

Section ImportConfig.

Context {E : Env}.

Lemma unpackable_dec it : {unpackable it} + {~ unpackable it}.
Proof. destruct it; simpl; auto. Qed.

Lemma mapR_star_unpackable data :
  Forall unpackable data ->
  mapR MetricObservation_star data = Ok (map as_observation data).
Proof.
  induction 1 as [|it data Hit _ IH]; simpl; [reflexivity|].
  rewrite IH. destruct it as [[x ti]| |]; simpl in *; try reflexivity.
  contradiction.
Qed.

Lemma mapR_star_not_unpackable data :
  ~ Forall unpackable data ->
  mapR MetricObservation_star data
    = Raise (TypeError "MetricObservation() argument after * must be an iterable").
Proof.
  induction data as [|it data IH]; intros Hnot.
  - exfalso. apply Hnot. constructor.
  - simpl. destruct it as [o| |]; try reflexivity; simpl;
      (rewrite IH; [reflexivity|]);
      intros Hall; apply Hnot; constructor; simpl; auto.
Qed.

Lemma rebuild_histories_cases (mh : gmap string (list pyitem)) :
  (histories_unpackable mh /\
   rebuild_histories mh = Ok (map as_observation <$> mh)) \/
  (~ histories_unpackable mh /\
   rebuild_histories mh
     = Raise (TypeError "MetricObservation() argument after * must be an iterable")).
Proof.
  unfold rebuild_histories.
  apply (map_fold_weak_ind
           (fun r m =>
              (histories_unpackable m /\ r = Ok (map as_observation <$> m)) \/
              (~ histories_unpackable m /\
               r = Raise (TypeError
                   "MetricObservation() argument after * must be an iterable")))).
  - left. split; [|rewrite fmap_empty; reflexivity].
    intros name h Hh. rewrite lookup_empty in Hh. discriminate.
  - intros i x m r Hi [[Hm ->]|[Hm ->]]; simpl.
    + destruct (List.Forall_dec unpackable unpackable_dec x) as [Hx|Hx].
      * left. split.
        -- intros name h. destruct (decide (i = name)) as [->|Hne].
           ++ rewrite lookup_insert_eq. intros [= <-]. exact Hx.
           ++ rewrite lookup_insert_ne by exact Hne. apply Hm.
        -- rewrite (mapR_star_unpackable x Hx). simpl.
           rewrite fmap_insert. reflexivity.
      * right. split.
        -- intros Hall. apply Hx. apply (Hall i). apply lookup_insert_eq.
        -- rewrite (mapR_star_not_unpackable x Hx). reflexivity.
    + right. split; [|reflexivity].
      intros Hall. apply Hm. intros name h Hh. apply (Hall name).
      rewrite lookup_insert_ne; [exact Hh|]. congruence.
Qed.

(** X13. [from_config] validates nothing but the shape of the items: it
    succeeds exactly when every item of every history unpacks into two
    fields.  The tracker it then returns has the names and the directions of
    the configuration as they are, and the histories with every plain pair
    turned into an observation; otherwise it raises a [TypeError]. *)
Theorem from_config_unpackable c :
  (histories_unpackable (cfg_metrics_history c) ->
     from_config c =
       Ok (mkTracker (cfg_names c) (cfg_directions c)
                     (map as_observation <$> cfg_metrics_history c))) /\
  (~ histories_unpackable (cfg_metrics_history c) ->
     from_config c =
       Raise (TypeError "MetricObservation() argument after * must be an iterable")).
Proof.
  unfold from_config; simpl.
  destruct (rebuild_histories_cases (cfg_metrics_history c)) as [[H ->]|[H ->]];
    simpl; split; intros H'; try reflexivity; contradiction.
Qed.

End ImportConfig.

(** ** Validation metrics *)

Section Validation.

Context {E : Env}.

(** X14. A metric named ["val_"] followed by a name has the direction of
    that name, provided the name is not empty and does not itself carry a
    ["val_"] prefix that would be stripped. *)
Theorem validation_metric_direction s :
  s <> "" -> canonical_name s = s ->
  infer_metric_direction (MStr ("val_" +:+ s)) = infer_metric_direction (MStr s).
Proof.
  intros Hne Hcanon. rewrite !infer_metric_direction_canonical, Hcanon.
  destruct s as [|c rest]; [contradiction|]. reflexivity.
Qed.

End Validation.

(** ** Registering several metrics *)

Section RegisterMetrics.

Context {E : Env}.

(** X15. [register_metrics] on [l1 ++ l2] registers the metrics of [l1]
    and then those of [l2]; it stops at the first metric that cannot be
    registered, and the metrics registered before it stay registered. *)
Theorem register_metrics_app l1 l2 tr :
  register_metrics (Some (l1 ++ l2)) tr =
    match register_metrics (Some l1) tr with
    | (tr1, Ok _) => register_metrics (Some l2) tr1
    | (tr1, Raise e) => (tr1, Raise e)
    end.
Proof.
  unfold register_metrics; simpl. revert tr.
  induction l1 as [|m l1 IH]; intros tr; [reflexivity|].
  simpl. unfold bind, lift.
  destruct (attr_name m) as [name|e]; [|reflexivity].
  destruct (register name _ tr) as [tr1 [[]|e]]; [apply IH|reflexivity].
Qed.

(** X16. [register_metrics] on metric instances whose names are distinct
    and not yet registered succeeds: the names are appended to [names] in the
    order given, each gets the direction inferred from the object (its class
    name, or the wrapped function's name) and an empty history, and the other
    names keep their direction and history. *)
Theorem register_metrics_instances cs tr :
  NoDup (cs.*2) ->
  (forall c, c ∈ cs -> c.2 ∉ names tr) ->
  exists tr',
    register_metrics (Some (map metric_instance cs)) tr = (tr', Ok tt) /\
    names tr' = names tr ++ cs.*2 /\
    (forall c, c ∈ cs ->
       directions tr' !! c.2 = Some (direction_of_obj (KInstance c.1.1 c.1.2 c.2)) /\
       metrics_history tr' !! c.2 = Some []) /\
    (forall other, other ∉ cs.*2 ->
       directions tr' !! other = directions tr !! other /\
       metrics_history tr' !! other = metrics_history tr !! other).
Proof.
  unfold register_metrics; simpl. revert tr.
  induction cs as [|c cs IH]; intros tr Hnd Hfresh.
  - exists tr. simpl. rewrite app_nil_r.
    split; [reflexivity|]. split; [reflexivity|]. split; [|auto].
    intros c Hc. inversion Hc.
  - simpl in Hnd. apply NoDup_cons in Hnd as [Hc Hnd].
    simpl. unfold bind at 1, lift. simpl. unfold bind at 1.
    rewrite (register_fresh c.2 (Some (direction_of_obj (KInstance c.1.1 c.1.2 c.2))));
      [|apply direction_of_obj_valid|apply Hfresh; left].
    destruct (IH (registered c.2 (direction_of_obj (KInstance c.1.1 c.1.2 c.2)) tr) Hnd)
      as (tr' & Hrun & Hnames & Hnew & Hold).
    { intros c' Hc'. unfold registered; simpl. intros Hin.
      apply elem_of_app in Hin as [Hin|Hin].
      - apply (Hfresh c'); [right; exact Hc'|exact Hin].
      - apply list_elem_of_singleton in Hin. apply Hc. rewrite <- Hin.
        apply list_elem_of_fmap_2, Hc'. }
    exists tr'. split; [exact Hrun|]. split.
    { rewrite Hnames. unfold registered; simpl. rewrite <- app_assoc. reflexivity. }
    split.
    + intros c' Hc'. apply elem_of_cons in Hc' as [->|Hc']; [|apply Hnew, Hc'].
      destruct (Hold c.2 Hc) as [Hd Hh]. rewrite Hd, Hh.
      unfold registered, resolved_direction; simpl.
      rewrite !lookup_insert_eq. auto.
    + intros other Hother. apply not_elem_of_cons in Hother as [Hne Hother].
      destruct (Hold other Hother) as [Hd Hh]. rewrite Hd, Hh.
      unfold registered; simpl. rewrite !lookup_insert_ne by congruence. auto.
Qed.

End RegisterMetrics.

(** ** Extrema in the presence of NaN *)

Section ExtremumNaN.

Variables le lt : float -> float -> bool.

Hypothesis le_nonnan : forall a b, le a b = true -> isnan a = false /\ isnan b = false.
Hypothesis lt_le : forall a b, lt a b = true -> le a b = true.
Hypothesis le_total :
  forall a b, isnan a = false -> isnan b = false -> le a b = negb (lt b a).

Variable scan : float -> nat -> nat -> list float -> nat.
Hypothesis scan_eq : forall mp ibest i l,
  scan mp ibest i l =
    if isnan mp then ibest else
    match l with
    | [] => ibest
    | x :: l' => if negb (le mp x) then scan x i (S i) l' else scan mp ibest (S i) l'
    end.

#[local] Abbreviation pick' := (fun best y : float => if lt y best then y else best).
#[local] Abbreviation reduce' := (fun a b : float => if le a b || isnan b then a else b).

(** The builtin keeps a first item that is NaN, and never moves to one. *)
Lemma pick_fold_isnan l x : isnan (fold_left pick' l x) = isnan x.
Proof.
  revert x. induction l as [|y l IH]; intros x; [reflexivity|].
  cbn [fold_left]. rewrite IH.
  destruct (lt y x) eqn:Hlt; [|reflexivity].
  apply lt_le, le_nonnan in Hlt as [Hy Hx]. congruence.
Qed.


(** The scan stops at the first NaN. *)
Lemma scan_first_nan l1 : forall mp ibest i q l2,
  isnan mp = false ->
  Forall (fun p => isnan p = false) l1 ->
  isnan q = true ->
  scan mp ibest i (l1 ++ q :: l2) = (i + length l1)%nat.
Proof.
  induction l1 as [|x l1 IH]; intros mp ibest i q l2 Hmp Hl1 Hq.
  - simpl. rewrite scan_eq, Hmp.
    assert (Hle : le mp q = false).
    { destruct (le mp q) eqn:Hle; [|reflexivity].
      apply le_nonnan in Hle as [_ Hle]. congruence. }
    rewrite Hle. simpl. rewrite scan_eq, Hq. lia.
  - inversion Hl1 as [|? ? Hx Hl1']; subst.
    simpl. rewrite scan_eq, Hmp.
    destruct (negb (le mp x)); rewrite IH by assumption; lia.
Qed.

End ExtremumNaN.

Lemma mapR_snoc {A B} (f : A -> result B) l r x y :
  mapR f l = Ok r -> f x = Ok y -> mapR f (l ++ [x]) = Ok (r ++ [y]).
Proof.
  revert r; induction l as [|a l IH]; simpl; intros r Hl Hx.
  - injection Hl as <-. rewrite Hx. reflexivity.
  - destruct (f a); simpl in *; [|discriminate].
    destruct (mapR f l) as [r'|]; simpl in *; [|discriminate].
    injection Hl as <-. rewrite (IH r' eq_refl Hx). reflexivity.
Qed.


Section BestWithNaN.

Context {E : Env}.

Variables (name : string) (tr : MetricsTracker) (h : list pyitem)
          (vs : list float) (d : string).
Hypothesis Hname : name ∈ names tr.
Hypothesis Hh : metrics_history tr !! name = Some h.
Hypothesis Hvs : mapR attr_value h = Ok vs.
Hypothesis Hd : directions tr !! name = Some d.
Hypothesis Hvalid : valid_direction d.


(** X18. Whatever the recorded values, [get_best_value] returns NaN
    exactly when the first recorded value is NaN: the builtins [min] and
    [max] keep a first item that is NaN and never move to a later one. *)
Theorem get_best_value_nan_iff_first v0 rest :
  vs = v0 :: rest ->
  exists r,
    get_best_value name tr = (tr, Ok (Some r)) /\ isnan r = isnan v0.
Proof.
  intros Hps.
  assert (Hlen : (length h =? 0)%nat = false).
  { destruct h; [|reflexivity]. rewrite Hps in Hvs. discriminate. }
  unfold get_best_value, bind at 1.
  rewrite (get_history_registered _ _ _ Hname Hh), Hlen.
  unfold bind at 1, lift. rewrite Hvs.
  unfold bind at 1.
  rewrite (get_direction_registered name tr d Hd).
  rewrite Hps.
  destruct Hvalid as [-> | ->]; simpl String.eqb; cbv iota;
    unfold bind, lift, ret, py_min, py_max; eexists; (split; [reflexivity|]).
  - apply (pick_fold_isnan fle flt fle_nonnan flt_fle).
  - apply (pick_fold_isnan fge fgt fge_nonnan (fun a b => flt_fle b a)).
Qed.

(** X19. When a recorded value is NaN, [get_best_t] returns the time
    index of the first observation whose value is NaN, whatever the other
    values are: for [np.argmin] and [np.argmax] a NaN is the extremum. *)
Theorem get_best_t_first_nan pre q post :
  vs = pre ++ q :: post -> no_nan pre -> isnan q = true ->
  exists o,
    h !! length pre = Some (Obs o) /\ value o = q /\
    get_best_t name tr = (tr, Ok (Some (t o))).
Proof.
  intros Hps Hpre Hq.
  assert (Hlen : (length h =? 0)%nat = false).
  { destruct h; [|reflexivity]. rewrite Hps in Hvs. destruct pre; discriminate. }
  assert (Harg : (if String.eqb d "min" then np_argmin vs else np_argmax vs)
                 = Ok (length pre)).
  { rewrite Hps. destruct pre as [|p pre'].
    - simpl. unfold np_argmin, np_argmax.
      rewrite argmin_scan_eq, argmax_scan_eq, Hq.
      destruct (String.eqb d "min"); reflexivity.
    - inversion Hpre as [|? ? Hp Hpre']; subst. simpl. unfold np_argmin, np_argmax.
      rewrite (scan_first_nan fle fle_nonnan argmin_scan argmin_scan_eq
                 pre' p 0 1 q post Hp Hpre' Hq).
      rewrite (scan_first_nan fge fge_nonnan argmax_scan argmax_scan_eq
                 pre' p 0 1 q post Hp Hpre' Hq).
      destruct (String.eqb d "min"); reflexivity. }
  pose proof (mapR_attr_value_items h vs Hvs (length pre)) as Hitem.
  assert (Hq' : vs !! length pre = Some q).
  { rewrite Hps. rewrite lookup_app_r by lia. rewrite Nat.sub_diag. reflexivity. }
  destruct (h !! length pre) as [[o| |]|] eqn:Hhi; try contradiction; [|congruence].
  exists o. split; [reflexivity|]. split; [congruence|].
  unfold get_best_t, bind at 1.
  rewrite (get_history_registered _ _ _ Hname Hh), Hlen.
  unfold bind at 1, lift. rewrite Hvs.
  unfold bind at 1. rewrite (get_direction_registered name tr d Hd).
  unfold bind at 1. fold (@lift nat (np_argmin vs)) (@lift nat (np_argmax vs)).
  replace ((if String.eqb d "min" then lift (np_argmin vs) else lift (np_argmax vs)) tr)
    with (tr, if String.eqb d "min" then np_argmin vs else np_argmax vs)
    by (destruct (String.eqb d "min"); reflexivity).
  rewrite Harg, Hhi. reflexivity.
Qed.


(** X21. For a known metric with at least one recorded value that is not
    NaN, [get_statistics] returns the six entries ["min"], ["max"], ["mean"],
    ["median"], ["var"] and ["std"]; its ["min"] and ["max"] are recorded
    values, not NaN, and every recorded value that is not NaN lies between
    them. *)
Theorem get_statistics_min_max :
  Exists (fun q => isnan q = false) vs ->
  exists lo hi,
    get_statistics name tr =
      (tr, Ok (list_to_map
                 [ ("min", lo); ("max", hi);
                   ("mean", np_nanmean vs); ("median", np_nanmedian vs);
                   ("var", np_nanvar vs); ("std", np_nanstd vs) ])) /\
    In lo vs /\ In hi vs /\ isnan lo = false /\ isnan hi = false /\
    forall q, In q vs -> isnan q = false -> fle lo q = true /\ fle q hi = true.
Proof.
  intros Hex. destruct vs as [|p ps] eqn:Hps; [inversion Hex|].
  destruct (reduce_fold_spec fle flt fle_nonnan flt_fle fle_refl fle_total fle_trans
              ps p Hex) as (Hlo & Hlo_in & Hlo_le).
  destruct (reduce_fold_spec fge fgt fge_nonnan (fun a b => flt_fle b a) fle_refl
              fge_total (fun a b c H1 H2 => fle_trans c b a H2 H1)
              ps p Hex) as (Hhi & Hhi_in & Hhi_le).
  exists (fold_left np_fmin ps p), (fold_left np_fmax ps p).
  split.
  { unfold get_statistics, bind at 1.
    rewrite (get_history_registered _ _ _ Hname Hh).
    unfold bind at 1, lift. rewrite Hvs. reflexivity. }
  unfold np_fmin, np_fmax. repeat split; try assumption.
  - apply Hlo_le; assumption.
  - apply (Hhi_le q); assumption.
Qed.

End BestWithNaN.

(** ** Instances on the sample trackers *)

Ltac by_computation := apply (bool_decide_unpack _); vm_compute; exact I.

Lemma queries_unknown_metric_witness :
  get_history "mse" Sample.two_metrics
    = (Sample.two_metrics, Raise (UnknownMetric "mse")) /\
  get_best_value "mse" Sample.two_metrics
    = (Sample.two_metrics, Raise (UnknownMetric "mse")) /\
  get_best_t "mse" Sample.two_metrics
    = (Sample.two_metrics, Raise (UnknownMetric "mse")) /\
  @get_statistics Sample.env "mse" Sample.two_metrics
    = (Sample.two_metrics, Raise (UnknownMetric "mse")) /\
  get_last_value "mse" Sample.two_metrics
    = (Sample.two_metrics, Raise (UnknownMetric "mse")).
Proof.
  apply (@queries_unknown_metric Sample.env "mse" Sample.two_metrics).
  by_computation.
Defined.


Lemma get_best_value_no_nan_witness :
  exists r,
    get_best_value "loss" Sample.two_metrics = (Sample.two_metrics, Ok (Some r)) /\
    In r [f1_0; f0_8] /\
    forall p, In p [f1_0; f0_8] -> at_least_as_extreme "min" r p = true.
Proof.
  apply (get_best_value_no_nan "loss" Sample.two_metrics
           [Obs (mkObs f1_0 0); Obs (mkObs f0_8 1)] [f1_0; f0_8] "min").
  - by_computation.
  - reflexivity.
  - reflexivity.
  - reflexivity.
  - left. reflexivity.
  - discriminate.
  - repeat constructor.
Defined.

Lemma get_best_t_no_nan_witness :
  exists r i o,
    get_best_value "loss" Sample.two_metrics = (Sample.two_metrics, Ok (Some r)) /\
    get_best_t "loss" Sample.two_metrics = (Sample.two_metrics, Ok (Some (t o))) /\
    [Obs (mkObs f1_0 0); Obs (mkObs f0_8 1)] !! i = Some (Obs o) /\
    value o = r /\
    forall j o', (j < i)%nat ->
      [Obs (mkObs f1_0 0); Obs (mkObs f0_8 1)] !! j = Some (Obs o') ->
      more_extreme "min" r (value o') = true.
Proof.
  apply (get_best_t_no_nan "loss" Sample.two_metrics
           [Obs (mkObs f1_0 0); Obs (mkObs f0_8 1)] [f1_0; f0_8] "min").
  - by_computation.
  - reflexivity.
  - reflexivity.
  - reflexivity.
  - left. reflexivity.
  - discriminate.
  - repeat constructor.
Defined.


Lemma reachable_names_nodup_witness :
  NoDup (names (@after Sample.env (@Register Sample.env "loss" None)
                  (@after Sample.env (@Update Sample.env "loss" (Sample.PyFloat f1_0) 0)
                     (fst (@__init__ Sample.env None))))).
Proof.
  apply (@reachable_names_nodup Sample.env).
  apply reachable_step, reachable_step, reachable_init.
Defined.

Lemma reachable_registered_complete_witness :
  exists d h,
    directions (@after Sample.env (@Update Sample.env "loss" (Sample.PyFloat f1_0) 0)
                  (fst (@__init__ Sample.env None))) !! "loss" = Some d /\
    valid_direction d /\
    get_history "loss"
      (@after Sample.env (@Update Sample.env "loss" (Sample.PyFloat f1_0) 0)
         (fst (@__init__ Sample.env None)))
    = (@after Sample.env (@Update Sample.env "loss" (Sample.PyFloat f1_0) 0)
         (fst (@__init__ Sample.env None)), Ok h).
Proof.
  apply (@reachable_registered_complete Sample.env).
  - apply reachable_step, reachable_init.
  - by_computation.
Defined.

Lemma update_returns_bool_witness :
  match snd (@update Sample.env "loss" (Sample.PyFloat f0_8) 1
               (@after Sample.env (@Update Sample.env "loss" (Sample.PyFloat f1_0) 0)
                  (fst (@__init__ Sample.env None)))) with
  | Ok r => exists b, r = Some b
  | Raise _ => True
  end.
Proof.
  apply (@update_returns_bool Sample.env).
  apply reachable_step, reachable_init.
Defined.

Lemma non_observation_history_witness :
  @update Sample.env "x" (Sample.PyFloat f1_0) 0
     (mkTracker ["x"] {[ "x" := "min" ]} {[ "x" := [Num f0_5] ]})
    = (mkTracker ["x"] {[ "x" := "min" ]} {[ "x" := [Num f0_5] ]},
       Raise (AttributeError "value")) /\
  get_best_value "x" (mkTracker ["x"] {[ "x" := "min" ]} {[ "x" := [Num f0_5] ]})
    = (mkTracker ["x"] {[ "x" := "min" ]} {[ "x" := [Num f0_5] ]},
       Raise (AttributeError "value")) /\
  get_best_t "x" (mkTracker ["x"] {[ "x" := "min" ]} {[ "x" := [Num f0_5] ]})
    = (mkTracker ["x"] {[ "x" := "min" ]} {[ "x" := [Num f0_5] ]},
       Raise (AttributeError "value")) /\
  @get_statistics Sample.env "x"
     (mkTracker ["x"] {[ "x" := "min" ]} {[ "x" := [Num f0_5] ]})
    = (mkTracker ["x"] {[ "x" := "min" ]} {[ "x" := [Num f0_5] ]},
       Raise (AttributeError "value")).
Proof.
  apply (@non_observation_history Sample.env "x" _ [Num f0_5] (Sample.PyFloat f1_0) f1_0).
  - by_computation.
  - reflexivity.
  - intros H. inversion H as [|? ? Hit _]. exact Hit.
  - reflexivity.
Defined.

Lemma from_config_unpackable_witness :
  @from_config Sample.env
     (mkConfig ["m"] {[ "m" := "min" ]} {[ "m" := [Pair f1_0 3; Obs (mkObs f0_8 4)] ]})
  = Ok (mkTracker ["m"] {[ "m" := "min" ]}
          (map as_observation <$> {[ "m" := [Pair f1_0 3; Obs (mkObs f0_8 4)] ]})) /\
  @from_config Sample.env
     (mkConfig ["m"] {[ "m" := "min" ]} {[ "m" := [Pair f1_0 3; Num f0_8] ]})
  = Raise (TypeError "MetricObservation() argument after * must be an iterable").
Proof.
  split.
  - refine (proj1 (@from_config_unpackable Sample.env
                    (mkConfig ["m"] {[ "m" := "min" ]}
                              {[ "m" := [Pair f1_0 3; Obs (mkObs f0_8 4)] ]})) _).
    intros name h. simpl. destruct (decide (name = "m")) as [->|Hne].
    + rewrite lookup_singleton_eq. intros [= <-]. repeat constructor.
    + rewrite lookup_singleton_ne by congruence. discriminate.
  - refine (proj2 (@from_config_unpackable Sample.env
                    (mkConfig ["m"] {[ "m" := "min" ]}
                              {[ "m" := [Pair f1_0 3; Num f0_8] ]})) _).
    intros Hall. specialize (Hall "m" _ (lookup_singleton_eq _ _)).
    inversion Hall as [|? ? _ Hrest]. inversion Hrest as [|? ? Hnum _]. exact Hnum.
Defined.

Lemma validation_metric_direction_witness :
  @infer_metric_direction Sample.env (MStr ("val_" +:+ "accuracy"))
    = @infer_metric_direction Sample.env (MStr "accuracy").
Proof.
  apply (@validation_metric_direction Sample.env "accuracy").
  - discriminate.
  - reflexivity.
Defined.

Lemma register_metrics_instances_witness :
  exists tr',
    @register_metrics Sample.env
       (Some (map metric_instance
                [("AUC", "", "auc"); ("MeanMetricWrapper", "mean_squared_error", "mse")]))
       Sample.two_metrics = (tr', Ok tt) /\
    names tr' = names Sample.two_metrics
                ++ [("AUC", "", "auc"); ("MeanMetricWrapper", "mean_squared_error", "mse")].*2 /\
    (forall c, c ∈ [("AUC", "", "auc"); ("MeanMetricWrapper", "mean_squared_error", "mse")] ->
       directions tr' !! c.2 = Some (direction_of_obj (KInstance c.1.1 c.1.2 c.2)) /\
       metrics_history tr' !! c.2 = Some []) /\
    (forall other,
       other ∉ [("AUC", "", "auc"); ("MeanMetricWrapper", "mean_squared_error", "mse")].*2 ->
       directions tr' !! other = directions Sample.two_metrics !! other /\
       metrics_history tr' !! other = metrics_history Sample.two_metrics !! other).
Proof.
  apply (@register_metrics_instances Sample.env).
  - by_computation.
  - intros c Hc. apply elem_of_cons in Hc as [->|Hc]; [by_computation|].
    apply list_elem_of_singleton in Hc as ->. by_computation.
Defined.


Lemma get_best_value_nan_iff_first_witness :
  exists r,
    get_best_value "loss" nan_then_0_8 = (nan_then_0_8, Ok (Some r)) /\
    isnan r = isnan nan.
Proof.
  apply (get_best_value_nan_iff_first "loss" nan_then_0_8
           [Obs (mkObs nan 0); Obs (mkObs f0_8 1)] [nan; f0_8] "min"
           ltac:(by_computation) ltac:(vm_compute; reflexivity) eq_refl
           ltac:(vm_compute; reflexivity) ltac:(left; reflexivity) nan [f0_8]).
  reflexivity.
Defined.

Lemma get_best_t_first_nan_witness :
  exists o,
    [Obs (mkObs f1_0 0); Obs (mkObs nan 1)] !! length [f1_0] = Some (Obs o) /\
    value o = nan /\
    get_best_t "loss" one_then_nan = (one_then_nan, Ok (Some (t o))).
Proof.
  apply (get_best_t_first_nan "loss" one_then_nan
           [Obs (mkObs f1_0 0); Obs (mkObs nan 1)] [f1_0; nan] "min"
           ltac:(by_computation) ltac:(vm_compute; reflexivity) eq_refl
           ltac:(vm_compute; reflexivity) [f1_0] nan []).
  - reflexivity.
  - repeat constructor.
  - reflexivity.
Defined.


Lemma get_statistics_min_max_witness :
  exists lo hi,
    @get_statistics Sample.env "loss" Sample.two_metrics =
      (Sample.two_metrics,
       Ok (list_to_map
             [ ("min", lo); ("max", hi);
               ("mean", @np_nanmean Sample.env [f1_0; f0_8]);
               ("median", @np_nanmedian Sample.env [f1_0; f0_8]);
               ("var", @np_nanvar Sample.env [f1_0; f0_8]);
               ("std", @np_nanstd Sample.env [f1_0; f0_8]) ])) /\
    In lo [f1_0; f0_8] /\ In hi [f1_0; f0_8] /\
    isnan lo = false /\ isnan hi = false /\
    forall q, In q [f1_0; f0_8] -> isnan q = false ->
              fle lo q = true /\ fle q hi = true.
Proof.
  apply (@get_statistics_min_max Sample.env "loss" Sample.two_metrics
           [Obs (mkObs f1_0 0); Obs (mkObs f0_8 1)] [f1_0; f0_8]).
  - by_computation.
  - reflexivity.
  - reflexivity.
  - left. reflexivity.
Defined.

(** ** Catalog objects *)

Section Objects.

Context {E : Env}.

(** X22. A metric instance whose class is one of the maximised metric
    classes is maximised, whatever function it wraps and whatever name it was
    given; a function wrapper is classified by the function it wraps, not by
    its own class: maximised when that function is one of the maximised
    functions, minimised when it is in neither set. *)
Theorem infer_metric_direction_objects :
  (forall cls fn name, In cls _MAX_METRICS ->
     infer_metric_direction (MObj (KInstance cls fn name)) = "max") /\
  (forall fn name, In fn _MAX_METRIC_FNS ->
     infer_metric_direction (MObj (KInstance "MeanMetricWrapper" fn name)) = "max") /\
  (forall fn name, ~ In fn _MAX_METRICS -> ~ In fn _MAX_METRIC_FNS ->
     infer_metric_direction (MObj (KInstance "MeanMetricWrapper" fn name)) = "min").
Proof.
  split; [|split].
  - intros cls fn name Hin. simpl. rewrite direction_of_obj_identity.
    assert (Hid : identity (KInstance cls fn name) = cls).
    { simpl. destruct (String.eqb cls "MeanMetricWrapper") eqn:Hw; [|reflexivity].
      apply String.eqb_eq in Hw. subst cls. exfalso.
      simpl in Hin. repeat (destruct Hin as [Hin|Hin]; [discriminate Hin|]).
      exact Hin. }
    rewrite Hid. apply str_in_In in Hin. rewrite Hin. reflexivity.
  - intros fn name Hin. simpl. rewrite direction_of_obj_identity. simpl identity.
    apply str_in_In in Hin. rewrite Hin, orb_true_r. reflexivity.
  - intros fn name H1 H2. simpl. rewrite direction_of_obj_identity. simpl identity.
    rewrite <- str_in_In in H1, H2.
    apply not_true_is_false in H1, H2. rewrite H1, H2. reflexivity.
Qed.

End Objects.

(** ** Append order *)

Section AppendOrder.

Context {E : Env}.

Lemma run_updates_from name obs : forall tr rs,
  fst (fold_left (fun '(tr, rs) '(v, ti) =>
                    let (tr', r) := update name v ti tr in (tr', rs ++ [r]))
                 obs (tr, rs))
  = fst (run_updates name obs tr).
Proof.
  unfold run_updates.
  assert (Hany : forall tr rs1 rs2,
    fst (fold_left (fun '(tr, rs) '(v, ti) =>
                      let (tr', r) := update name v ti tr in (tr', rs ++ [r]))
                   obs (tr, rs1))
    = fst (fold_left (fun '(tr, rs) '(v, ti) =>
                        let (tr', r) := update name v ti tr in (tr', rs ++ [r]))
                     obs (tr, rs2))).
  { induction obs as [|[v ti] obs IH]; intros tr rs1 rs2; [reflexivity|].
    simpl. destruct (update name v ti tr) as [tr' r]. apply IH. }
  intros tr rs. apply Hany.
Qed.

(** X23. Histories grow in call order: after a series of [update] calls
    on a known metric whose history holds observations, with values that
    [float] accepts, the history of that metric is the old one followed by
    the new observations in the order of the calls, and names and directions
    are unchanged. *)
Theorem updates_append_in_order name obs tr h vs d xs :
  name ∈ names tr ->
  metrics_history tr !! name = Some h ->
  mapR attr_value h = Ok vs ->
  directions tr !! name = Some d ->
  valid_direction d ->
  Forall2 (fun o x => py_float o.1 = Ok x) obs xs ->
  names (fst (run_updates name obs tr)) = names tr /\
  directions (fst (run_updates name obs tr)) = directions tr /\
  metrics_history (fst (run_updates name obs tr)) !! name
    = Some (h ++ recorded obs xs).
Proof.
  revert tr h vs xs.
  induction obs as [|[v ti] obs IH]; intros tr h vs xs Hin Hh Hvs Hd Hvalid Hxs.
  - inversion Hxs; subst. unfold run_updates, recorded; simpl.
    rewrite app_nil_r. auto.
  - destruct xs as [|x xs']; [inversion Hxs|].
    apply Forall2_cons in Hxs as [Hx Hxs']. simpl in Hx.
    unfold run_updates. cbn [fold_left].
    rewrite (update_registered name v x ti tr h vs d Hx Hin Hh Hvs Hd Hvalid).
    rewrite run_updates_from.
    destruct (IH (appended name h x ti tr) (h ++ [Obs (mkObs x ti)]) (vs ++ [x]) xs'
                Hin (lookup_insert_eq _ _ _)
                (mapR_snoc attr_value h vs (Obs (mkObs x ti)) x Hvs eq_refl)
                Hd Hvalid Hxs') as (Hn & Hdir & Hhist).
    rewrite Hn, Hdir, Hhist. unfold recorded; simpl.
    rewrite <- app_assoc. auto.
Qed.

End AppendOrder.

Lemma updates_append_in_order_witness :
  names (fst (@run_updates Sample.env "loss"
                [(Sample.PyFloat f0_9, 2%Z); (Sample.PyStr "nan", 1%Z)]
                Sample.two_metrics)) = names Sample.two_metrics /\
  directions (fst (@run_updates Sample.env "loss"
                     [(Sample.PyFloat f0_9, 2%Z); (Sample.PyStr "nan", 1%Z)]
                     Sample.two_metrics)) = directions Sample.two_metrics /\
  metrics_history (fst (@run_updates Sample.env "loss"
                          [(Sample.PyFloat f0_9, 2%Z); (Sample.PyStr "nan", 1%Z)]
                          Sample.two_metrics)) !! "loss"
    = Some ([Obs (mkObs f1_0 0); Obs (mkObs f0_8 1)]
            ++ @recorded Sample.env
                 [(Sample.PyFloat f0_9, 2%Z); (Sample.PyStr "nan", 1%Z)]
                 [f0_9; nan]).
Proof.
  apply (@updates_append_in_order Sample.env "loss" _ Sample.two_metrics
           [Obs (mkObs f1_0 0); Obs (mkObs f0_8 1)] [f1_0; f0_8] "min").
  - apply (bool_decide_unpack _); vm_compute; exact I.
  - reflexivity.
  - reflexivity.
  - reflexivity.
  - left. reflexivity.
  - repeat constructor.
Defined.

Lemma infer_metric_direction_objects_witness :
  @infer_metric_direction Sample.env (MObj (KInstance "AUC" "" "my_auc")) = "max" /\
  @infer_metric_direction Sample.env
     (MObj (KInstance "MeanMetricWrapper" "binary_accuracy" "acc")) = "max" /\
  @infer_metric_direction Sample.env
     (MObj (KInstance "MeanMetricWrapper" "mean_squared_error" "mse")) = "min".
Proof.
  destruct (@infer_metric_direction_objects Sample.env) as (Hcls & Hfn & Hother).
  split; [|split].
  - apply Hcls. simpl. tauto.
  - apply Hfn. simpl. tauto.
  - apply Hother; simpl; intros H;
      repeat (destruct H as [H|H]; [discriminate H|]); exact H.
Defined.

